(** * Order service: placement workflow and order status state machine

    A shallow embedding of the handlers of the order service (package main:
    the REST handlers and the gRPC client wrappers of client.go) and the
    properties of the specification checked against it.

    Conventions of the embedding
    - Go [string] is [String.string] (a sequence of bytes), [int64] is [Z]
      with the wrap-around written where the code can overflow, [float64]
      is the primitive binary64 [float], each operation rounded on its own
      (no fused multiply-add, as on amd64).
    - The two package-level maps [orders] and [orderItems] are [gmap]s.
    - The product service behind [conn] is an interface: it is a type class
      over an abstract state of the remote catalog, so every theorem holds
      for every behaviour of the catalog, failures included.
    - A handler is a function from the state to a response and a state.
      Writing the response and returning early is the [inr] branch of the
      monad [M]. *)

From Stdlib Require Import ZArith Ascii String List Floats Uint63 Lia.
From Stdlib Require Import QArith Qabs Qpower Lqa.
From stdpp Require Import gmap strings list.
Import ListNotations.

Local Open Scope string_scope.
Local Open Scope Z_scope.

(** ** Machine numbers *)

(** Two's complement wrap-around of an [int64] result. *)
Definition wrap64 (z : Z) : Z := (z + 2 ^ 63) mod 2 ^ 64 - 2 ^ 63.

(** The conversion [float64(x)] of an [int64]. *)
Definition float64_of_int64 (z : Z) : float :=
  if z =? - 2 ^ 63 then (-9223372036854775808)%float
  else if z <? 0 then PrimFloat.opp (of_uint63 (Uint63.of_Z (- z)))
  else of_uint63 (Uint63.of_Z z).

(** ** Data model *)

Definition OrderStatus := string.

Definition OrderPlaced : OrderStatus := "placed".
Definition OrderDispatched : OrderStatus := "dispatched".
Definition OrderCompleted : OrderStatus := "completed".
Definition OrderReturned : OrderStatus := "returned".
Definition OrderCancelled : OrderStatus := "cancelled".

Record Order := mkOrder {
  ID : string;
  Discount : Z;
  Amount : float;
  Status : OrderStatus;
  DispatchedAt : string;
  CreatedAt : string;
  UpdatedAt : string
}.

Record OrderItem := mkOrderItem {
  ProductId : string;
  ProductQuantity : Z;
  OrderId : string
}.

Record CreateOrderItemsRequest := mkItemReq {
  req_ProductId : string;
  req_Quantity : Z
}.

Record CreateOrderRequest := mkOrderReq {
  Items : list CreateOrderItemsRequest
}.

Record CreateOrderItemsResponse := mkItemResp {
  item_ID : string;
  item_Name : string;
  item_Description : string;
  item_Category : string;
  item_Price : float;
  item_Quantity : Z
}.

Record CreateOrderResponse := mkOrderResp {
  resp_ID : string;
  resp_Items : list CreateOrderItemsResponse;
  resp_Discount : Z;
  resp_Amount : float;
  resp_Status : OrderStatus;
  resp_DispatchedAt : string;
  resp_CreatedAt : string;
  resp_UpdatedAt : string
}.

Record UpdateOrderStatusRequest := mkStatusReq {
  req_Status : OrderStatus
}.

(** The message [productpb.GetProductDetailsResponse], with the fields the
    handlers read. The generated package is not part of this repository;
    the field types are those the handlers force: [Price] is multiplied
    with a [float64] and [Quantity] is compared with an [int64]. *)
Record GetProductDetailsResponse := mkProduct {
  pd_Name : string;
  pd_Description : string;
  pd_Category : string;
  pd_Price : float;
  pd_Quantity : Z
}.

(** ** The product service client *)

(** [productpb.ProductServiceClient]: the two remote procedures the order
    service calls, over the state [World] of the remote catalog. [None] and
    [false] stand for a non-nil [err]. *)
Class ProductServiceClient (World : Type) := {
  rpc_GetProductDetails :
    string -> World -> option GetProductDetailsResponse * World;
  rpc_UpdateProductQuantity : string -> Z -> World -> bool * World
}.

(** The remote calls a handler has issued, in order. *)
Inductive Call :=
| CallGetProductDetails (productId : string)
| CallUpdateProductQuantity (productId : string) (quantity : Z).

(** What a handler writes: the status code and the body. *)
Inductive Body :=
| NoBody
| Text (msg : string)
| Json (o : CreateOrderResponse).

Record Response := mkResponse {
  code : Z;
  body : Body
}.

Definition StatusOK : Z := 200.
Definition StatusBadRequest : Z := 400.
Definition StatusNotFound : Z := 404.
Definition StatusInternalServerError : Z := 500.

Section OrderService.

Context {World : Type} {conn : ProductServiceClient World}.

(** [strings.ToLower] of the Go library. *)
Variable ToLower : string -> string.

(** The state a handler runs in: the two maps of the order store, the remote
    catalog, and the log of the remote calls issued so far. *)
Record State := mkState {
  orders : gmap string Order;
  orderItems : gmap string (list OrderItem);
  world : World;
  calls : list Call
}.

Definition M (A : Type) : Type := State -> (A + Response) * State.

Definition ret {A} (a : A) : M A := fun s => (inl a, s).

Definition bind {A B} (m : M A) (k : A -> M B) : M B :=
  fun s =>
    match m s with
    | (inl a, s') => k a s'
    | (inr r, s') => (inr r, s')
    end.

(** [w.WriteHeader(c); w.Write(b); return] *)
Definition respond {A} (c : Z) (b : Body) : M A :=
  fun s => (inr (mkResponse c b), s).

Definition run (m : M Response) (s : State) : Response * State :=
  match m s with
  | (inl r, s') => (r, s')
  | (inr r, s') => (r, s')
  end.

Notation "x <- m ;; k" := (bind m (fun x => k))
  (at level 100, m at next level, right associativity).
Notation "m ;;; k" := (bind m (fun _ => k))
  (at level 100, right associativity).

(** [for _, item := range l { body item }] *)
Fixpoint for_each {A} (f : A -> M unit) (l : list A) : M unit :=
  match l with
  | [] => ret tt
  | a :: l' => f a ;;; for_each f l'
  end.

(** A [range] loop that updates local variables [acc]. *)
Fixpoint for_fold {A B} (f : B -> A -> M B) (l : list A) (acc : B) : M B :=
  match l with
  | [] => ret acc
  | a :: l' => acc' <- f acc a ;; for_fold f l' acc'
  end.

(** *** client.go *)

Definition GetProductDetails (productId : string)
  : M (option GetProductDetailsResponse) :=
  fun s =>
    let '(resp, w) := rpc_GetProductDetails productId (world s) in
    (inl resp,
     mkState (orders s) (orderItems s) w
             (calls s ++ [CallGetProductDetails productId])).

Definition UpdateProductQuantity (productId : string) (quantity : Z)
  : M bool :=
  fun s =>
    let '(ok, w) := rpc_UpdateProductQuantity productId quantity (world s) in
    (inl ok,
     mkState (orders s) (orderItems s) w
             (calls s ++ [CallUpdateProductQuantity productId quantity])).

(** *** Structural validation of a placement request *)

(** The first loop of [CreateOrderRequest.Validate]: [uniqueItems] holds the lower-cased ids
    seen so far. *)
Fixpoint repeated (uniqueItems : list string)
  (items : list CreateOrderItemsRequest) : bool :=
  match items with
  | [] => false
  | item :: rest =>
      if existsb (String.eqb (ToLower (req_ProductId item))) uniqueItems
      then true
      else repeated (uniqueItems ++ [ToLower (req_ProductId item)]) rest
  end.

(** The second loop of [CreateOrderRequest.Validate]. *)
Fixpoint checkItems (items : list CreateOrderItemsRequest) : option string :=
  match items with
  | [] => None
  | item :: rest =>
      if String.eqb (req_ProductId item) "" then Some "invalid product id"
      else if negb ((0 <? req_Quantity item) && (req_Quantity item <=? 10))
      then Some
        "product quantiy must be greater than 0 and less than equal to 10"
      else checkItems rest
  end.

(** [(coReq *CreateOrderRequest) Validate()]: [None] is a nil error. *)
Definition CreateOrderRequest_Validate (coReq : CreateOrderRequest) : option string :=
  if (length (Items coReq) =? 0)%nat then Some "items not provided"
  else if repeated [] (Items coReq) then Some "product id is repeated"
  else checkItems (Items coReq).

(** *** Projection of the stored line items *)

(** The loop of [GetOrderItemsDetailsList]: the list built so far and the
    error, if any. *)
Fixpoint detailsLoop (items : list OrderItem)
  (acc : list CreateOrderItemsResponse)
  : M (list CreateOrderItemsResponse * option string) :=
  match items with
  | [] => ret (acc, None)
  | item :: rest =>
      productDetails <- GetProductDetails (ProductId item) ;;
      match productDetails with
      | None =>
          ret (acc, Some ("product with id: " +:+ ProductId item
                          +:+ ", does not exist"))
      | Some pd =>
          detailsLoop rest
            (acc ++ [mkItemResp (ProductId item) (pd_Name pd)
                       (pd_Description pd) (pd_Category pd) (pd_Price pd)
                       (ProductQuantity item)])
      end
  end.

Definition GetOrderItemsDetailsList (orderId : string)
  : M (list CreateOrderItemsResponse * option string) :=
  fun s => detailsLoop (default [] (orderItems s !! orderId)) [] s.

(** [json.Marshal] fails exactly on a float that is NaN or infinite. *)
Definition finite (f : float) : bool :=
  negb (PrimFloat.is_nan f) && negb (PrimFloat.is_infinity f).

Definition marshals (r : CreateOrderResponse) : bool :=
  finite (resp_Amount r)
  && forallb (fun i => finite (item_Price i)) (resp_Items r).

(** The end of the three handlers that answer with one order. *)
Definition writeOrder (orderDetails : CreateOrderResponse) : M Response :=
  if marshals orderDetails then respond StatusOK (Json orderDetails)
  else respond StatusInternalServerError NoBody.

(** *** Placing an order *)

Definition existsMsg (productId suffix : string) : Body :=
  Text ("product with id: " +:+ productId +:+ suffix).

(** Body of the first loop: the product exists and has the stock. *)
Definition checkStock (item : CreateOrderItemsRequest) : M unit :=
  productDetails <- GetProductDetails (req_ProductId item) ;;
  match productDetails with
  | None =>
      respond StatusNotFound (existsMsg (req_ProductId item) " does not exist")
  | Some pd =>
      if pd_Quantity pd <? req_Quantity item
      then respond StatusNotFound
             (existsMsg (req_ProductId item) " does not have enough inventory")
      else ret tt
  end.

(** Body of the second loop, over the locals [orderAmount],
    [numberOfPremiumProducts] and [oItems]. *)
Definition priceItem (orderId : string) (acc : float * Z * list OrderItem)
  (item : CreateOrderItemsRequest) : M (float * Z * list OrderItem) :=
  let '(orderAmount, numberOfPremiumProducts, oItems) := acc in
  productDetails <- GetProductDetails (req_ProductId item) ;;
  match productDetails with
  | None =>
      respond StatusNotFound
        (existsMsg (req_ProductId item)
           " does not exist while preparing order")
  | Some pd =>
      ret ((orderAmount
            + pd_Price pd * float64_of_int64 (req_Quantity item))%float,
           if String.eqb (ToLower (pd_Category pd)) "premium"
           then wrap64 (numberOfPremiumProducts + 1)
           else numberOfPremiumProducts,
           (oItems ++ [mkOrderItem (req_ProductId item) (req_Quantity item)
                         orderId])%list)
  end.

(** The discount of 10% from three premium products on, and the amount. *)
Definition applyDiscount (o : Order) (orderAmount : float)
  (numberOfPremiumProducts : Z) : Order :=
  if 3 <=? numberOfPremiumProducts
  then
    let discountInPercentage := 10 in
    mkOrder (ID o) discountInPercentage
      (orderAmount
       - orderAmount * float64_of_int64 discountInPercentage / 100)%float
      (Status o) (DispatchedAt o) (CreatedAt o) (UpdatedAt o)
  else
    mkOrder (ID o) (Discount o) orderAmount
      (Status o) (DispatchedAt o) (CreatedAt o) (UpdatedAt o).

(** [orders[o.ID] = o; orderItems[o.ID] = oItems] *)
Definition putOrder (o : Order) (oItems : list OrderItem) : M unit :=
  fun s =>
    (inl tt,
     mkState (<[ID o := o]> (orders s)) (<[ID o := oItems]> (orderItems s))
             (world s) (calls s)).

(** Body of the third loop: the new quantity is set in the inventory. *)
Definition adjustItem (item : CreateOrderItemsRequest) : M unit :=
  productDetails <- GetProductDetails (req_ProductId item) ;;
  match productDetails with
  | None =>
      respond StatusNotFound
        (existsMsg (req_ProductId item)
           " does not exist while updating product quantity in the order inventory")
  | Some pd =>
      ok <- UpdateProductQuantity (req_ProductId item)
              (wrap64 (pd_Quantity pd - req_Quantity item)) ;;
      if ok : bool then ret tt
      else respond StatusInternalServerError
             (Text ("inventory for product with id: "
                    +:+ req_ProductId item +:+ " could not be updated"))
  end.

(** The order a placement starts from: [uuid.New()] is [newId] and
    [time.Now().UTC().String()] is [currentTime]. *)
Definition newOrder (newId currentTime : string) : Order :=
  mkOrder newId 0 0%float OrderPlaced "" currentTime currentTime.

(** The handler after the request body has been decoded into [oReq]. *)
Definition PlaceOrderHandler (oReq : CreateOrderRequest)
  (newId currentTime : string) : State -> Response * State :=
  run
    match CreateOrderRequest_Validate oReq with
    | Some err => respond StatusBadRequest (Text err)
    | None =>
        for_each checkStock (Items oReq) ;;;
        let o := newOrder newId currentTime in
        acc <- for_fold (priceItem (ID o)) (Items oReq) (0%float, 0, []) ;;
        let '(orderAmount, numberOfPremiumProducts, oItems) := acc in
        let o := applyDiscount o orderAmount numberOfPremiumProducts in
        putOrder o oItems ;;;
        for_each adjustItem (Items oReq) ;;;
        details <- GetOrderItemsDetailsList (ID o) ;;
        match snd details with
        | Some err => respond StatusInternalServerError (Text err)
        | None =>
            writeOrder
              (mkOrderResp (ID o) (fst details) (Discount o) (Amount o)
                 (Status o) "" (CreatedAt o) (UpdatedAt o))
        end
    end.

(** *** Reading one order *)

Definition lookupOrder (orderId : string) : M (option Order) :=
  fun s => (inl (orders s !! orderId), s).

Definition orderNotFound {A} (orderId : string) : M A :=
  respond StatusNotFound
    (Text ("order with id: " +:+ orderId +:+ " does not exist")).

Definition GetOrderDetailsHandler (orderId : string)
  : State -> Response * State :=
  run
    (found <- lookupOrder orderId ;;
     match found with
     | None => orderNotFound orderId
     | Some o =>
         details <- GetOrderItemsDetailsList (ID o) ;;
         match snd details with
         | Some err => respond StatusInternalServerError (Text err)
         | None =>
             writeOrder
               (mkOrderResp (ID o) (fst details) (Discount o) (Amount o)
                  (Status o) (DispatchedAt o) (CreatedAt o) (UpdatedAt o))
         end
     end).

(** *** Updating the status of an order *)

Definition UpdateOrderStatusRequest_Validate (u : UpdateOrderStatusRequest)
  : option string :=
  if existsb (String.eqb (req_Status u))
       [OrderPlaced; OrderDispatched; OrderCompleted; OrderReturned;
        OrderCancelled]
  then None
  else Some "invalid order status".

Definition orderStatusMap : gmap OrderStatus Z :=
  {[ OrderPlaced := 1; OrderDispatched := 2; OrderCompleted := 3;
     OrderReturned := 4; OrderCancelled := 5 ]}.

(** [orderStatusMap[status]]: a missing key reads as 0. *)
Definition rank (status : OrderStatus) : Z :=
  default 0 (orderStatusMap !! status).

(** The [switch] on the two ranks: the reason of the rejection, or [None]
    when no case applies and the update goes on. *)
Definition transitionError (currentOrderStatusRank newOrderStatusRank : Z)
  : option string :=
  if newOrderStatusRank <=? currentOrderStatusRank
  then Some "order status can be updated to a lower or the same status"
  else if (newOrderStatusRank =? 3) && negb (currentOrderStatusRank =? 2)
  then Some "order cannot be completed until it is dispatched"
  else if (newOrderStatusRank =? 4) && negb (currentOrderStatusRank =? 3)
  then Some "order cannot be returned until it is completed"
  else if (newOrderStatusRank =? 5) && (2 <? currentOrderStatusRank)
  then Some "order cannot be cancelled once it is completed or returned"
  else None.

(** The fields of [o] after an accepted update to [status] at time [now]. *)
Definition withStatus (o : Order) (status : OrderStatus) (now : string)
  : Order :=
  let o1 :=
    mkOrder (ID o) (Discount o) (Amount o) status (DispatchedAt o)
      (CreatedAt o) (UpdatedAt o) in
  if String.eqb status OrderDispatched
  then mkOrder (ID o1) (Discount o1) (Amount o1) (Status o1) now
         (CreatedAt o1) (UpdatedAt o1)
  else o1.

(** [orders[o.ID] = o] *)
Definition storeOrder (o : Order) : M unit :=
  fun s =>
    (inl tt,
     mkState (<[ID o := o]> (orders s)) (orderItems s) (world s) (calls s)).

(** The handler after the request body has been decoded; [now] is the
    clock read by the branch that stamps [DispatchedAt]. *)
Definition UpdateOrderStatusHandler (orderId : string)
  (updateStatusReq : UpdateOrderStatusRequest) (now : string)
  : State -> Response * State :=
  run
    match UpdateOrderStatusRequest_Validate updateStatusReq with
    | Some err => respond StatusBadRequest (Text err)
    | None =>
        found <- lookupOrder orderId ;;
        match found with
        | None => orderNotFound orderId
        | Some o =>
            match transitionError (rank (Status o))
                    (rank (req_Status updateStatusReq)) with
            | Some reason => respond StatusBadRequest (Text reason)
            | None =>
                let o := withStatus o (req_Status updateStatusReq) now in
                storeOrder o ;;;
                details <- GetOrderItemsDetailsList (ID o) ;;
                match snd details with
                | Some err => respond StatusInternalServerError (Text err)
                | None =>
                    writeOrder
                      (mkOrderResp (ID o) (fst details) 0 (Amount o)
                         (Status o) (DispatchedAt o) (CreatedAt o)
                         (UpdatedAt o))
                end
            end
        end
    end.

End OrderService.

Arguments State World : clear implicits.
Arguments mkState {World} _ _ _ _.

(** ** A catalog to run the handlers on *)

(** A product service that keeps its products in a list; the update of a
    product listed in [failing], or of a missing product, returns an
    error. Reads do not change it. *)
Record Catalog := mkCatalog {
  products : list (string * GetProductDetailsResponse);
  failing : list string
}.

Fixpoint findProduct (productId : string)
  (l : list (string * GetProductDetailsResponse))
  : option GetProductDetailsResponse :=
  match l with
  | [] => None
  | (k, pd) :: rest =>
      if String.eqb k productId then Some pd else findProduct productId rest
  end.

Fixpoint setQuantity (productId : string) (quantity : Z)
  (l : list (string * GetProductDetailsResponse))
  : list (string * GetProductDetailsResponse) :=
  match l with
  | [] => []
  | (k, pd) :: rest =>
      if String.eqb k productId
      then (k, mkProduct (pd_Name pd) (pd_Description pd) (pd_Category pd)
                 (pd_Price pd) quantity) :: rest
      else (k, pd) :: setQuantity productId quantity rest
  end.

#[export] Instance catalogClient : ProductServiceClient Catalog := {
  rpc_GetProductDetails productId w := (findProduct productId (products w), w);
  rpc_UpdateProductQuantity productId quantity w :=
    if existsb (String.eqb productId) (failing w) then (false, w)
    else match findProduct productId (products w) with
         | None => (false, w)
         | Some _ =>
             (true, mkCatalog (setQuantity productId quantity (products w))
                      (failing w))
         end
}.

(** [strings.ToLower] on strings of ASCII characters. *)
Definition lowerAscii (c : ascii) : ascii :=
  let n := nat_of_ascii c in
  if ((65 <=? n) && (n <=? 90))%nat then ascii_of_nat (n + 32) else c.

Fixpoint asciiToLower (s : string) : string :=
  match s with
  | EmptyString => EmptyString
  | String c rest => String (lowerAscii c) (asciiToLower rest)
  end.

Definition emptyStore (w : Catalog) : State Catalog := mkState ∅ ∅ w [].

Definition product (category : string) (price : float) (quantity : Z)
  : GetProductDetailsResponse :=
  mkProduct "name" "description" category price quantity.

(** ** Binary64 arithmetic: the error of one rounding

    The amount of a discounted order is computed by three float64
    operations. Their primitive versions are specified by the functions
    [SFmul], [SFdiv] and [SFsub] of the standard library on mantissas and
    exponents; this part derives from those functions that, on positive
    normal numbers and without overflow, each operation returns the exact
    result with a relative error of at most 2^-53. *)

(** The rational number a finite binary64 stands for. *)
Definition exactValue (f : float) : option Q :=
  match Prim2SF f with
  | S754_zero _ => Some 0%Q
  | S754_finite sign m e =>
      Some ((if sign then - (Z.pos m # 1) else Z.pos m # 1) * 2 ^ e)%Q
  | _ => None
  end.









































(** ** The handlers leave the store alone outside their two writes *)

Section Properties.

Context {World : Type} {conn : ProductServiceClient World}.

#[local] Abbreviation St := (State World).

Notation "x <- m ;; k" := (bind m (fun x => k))
  (at level 100, m at next level, right associativity).
Notation "m ;;; k" := (bind m (fun _ => k))
  (at level 100, right associativity).

(** [s'] has the order store of [s]. *)
Definition sameStore (s s' : St) : Prop :=
  orders s' = orders s /\ orderItems s' = orderItems s.

(** A computation that writes neither map. *)
Definition preserves {A} (m : M A) : Prop :=
  forall s : St, sameStore s (snd (m s)).

Lemma sameStore_refl (s : St) : sameStore s s.
Proof. split; reflexivity. Qed.

Lemma sameStore_trans (s1 s2 s3 : St) :
  sameStore s1 s2 -> sameStore s2 s3 -> sameStore s1 s3.
Proof. intros [H1 H2] [H3 H4]. split; congruence. Qed.

Lemma preserves_ret {A} (a : A) : preserves (ret a).
Proof. intros s. apply sameStore_refl. Qed.

Lemma preserves_respond {A} c b :
  preserves (respond (A := A) c b).
Proof. intros s. apply sameStore_refl. Qed.

Lemma preserves_bind {A B} (m : M A) (k : A -> M B) :
  preserves m -> (forall a, preserves (k a)) ->
  preserves (bind m k).
Proof.
  intros Hm Hk s. unfold bind. specialize (Hm s).
  destruct (m s) as [[a | r] s1]; simpl in *.
  - eapply sameStore_trans; [exact Hm | apply Hk].
  - exact Hm.
Qed.

Lemma preserves_GetProductDetails productId :
  preserves (GetProductDetails productId).
Proof.
  intros s. unfold GetProductDetails.
  destruct (rpc_GetProductDetails productId (world s)); split; reflexivity.
Qed.

Lemma preserves_UpdateProductQuantity productId quantity :
  preserves (UpdateProductQuantity productId quantity).
Proof.
  intros s. unfold UpdateProductQuantity.
  destruct (rpc_UpdateProductQuantity productId quantity (world s));
    split; reflexivity.
Qed.

Lemma preserves_for_each {A} (f : A -> M unit) l :
  (forall a, preserves (f a)) -> preserves (for_each f l).
Proof.
  intros Hf. induction l as [| a l IH]; simpl.
  - apply preserves_ret.
  - apply preserves_bind; [apply Hf | intros _; exact IH].
Qed.

Lemma preserves_for_fold {A B} (f : B -> A -> M B) l :
  (forall b a, preserves (f b a)) ->
  forall acc, preserves (for_fold f l acc).
Proof.
  intros Hf. induction l as [| a l IH]; intros acc; simpl.
  - apply preserves_ret.
  - apply preserves_bind; [apply Hf | intros b; apply IH].
Qed.

Create HintDb frame.

#[local] Hint Resolve preserves_ret preserves_respond
  preserves_GetProductDetails preserves_UpdateProductQuantity : frame.

Ltac frame_step :=
  first
    [ apply preserves_bind; [| intros ?]
    | apply preserves_for_each; intros ?
    | apply preserves_for_fold; intros ? ?
    | solve [auto with frame]
    | match goal with
      | |- preserves (match ?x with _ => _ end) => destruct x
      | |- preserves (if ?x then _ else _) => destruct x
      end ].

Lemma preserves_checkStock item :
  preserves (checkStock item).
Proof. unfold checkStock. repeat frame_step. Qed.

Lemma preserves_adjustItem item :
  preserves (adjustItem item).
Proof. unfold adjustItem. repeat frame_step. Qed.

Lemma preserves_detailsLoop items :
  forall acc, preserves (detailsLoop items acc).
Proof.
  induction items as [| item rest IH]; intros acc; simpl.
  - apply preserves_ret.
  - apply preserves_bind; [auto with frame |].
    intros [pd |]; [apply IH | apply preserves_ret].
Qed.

Lemma preserves_GetOrderItemsDetailsList orderId :
  preserves (GetOrderItemsDetailsList orderId).
Proof. intros s. unfold GetOrderItemsDetailsList. apply preserves_detailsLoop. Qed.

Lemma preserves_writeOrder r : preserves (writeOrder r).
Proof. unfold writeOrder. destruct (marshals r); auto with frame. Qed.

#[local] Hint Resolve preserves_checkStock
  preserves_adjustItem preserves_GetOrderItemsDetailsList
  preserves_writeOrder : frame.

(** ** The order status state machine *)

Definition statuses : list OrderStatus :=
  [OrderPlaced; OrderDispatched; OrderCompleted; OrderReturned;
   OrderCancelled].

(** The numbering of the states in the specification. *)
Definition specRank (status : OrderStatus) : Z :=
  if String.eqb status OrderPlaced then 1
  else if String.eqb status OrderDispatched then 2
  else if String.eqb status OrderCompleted then 3
  else if String.eqb status OrderReturned then 4
  else if String.eqb status OrderCancelled then 5
  else 0.

(** The transition rule in the words of the specification, on the current
    rank [c] and the requested rank [n]: reject if [n <= c]; reject
    Completed unless [c] is Dispatched; reject Returned unless [c] is
    Completed; reject Cancelled if [c] is above Dispatched; otherwise
    accept. *)
Definition rankRuleAccepts (c n : Z) : bool :=
  if n <=? c then false
  else if n =? 3 then c =? 2
  else if n =? 4 then c =? 3
  else if n =? 5 then negb (2 <? c)
  else true.

(** The legal paths of the specification: Placed, Dispatched, Completed,
    Returned in a row, and Cancelled from Placed or Dispatched. *)
Definition legalTransitions : list (OrderStatus * OrderStatus) :=
  [(OrderPlaced, OrderDispatched); (OrderDispatched, OrderCompleted);
   (OrderCompleted, OrderReturned); (OrderPlaced, OrderCancelled);
   (OrderDispatched, OrderCancelled)].

(** The order the handler is about to write when it reaches the update:
    the request is valid, the order exists and no case of the [switch]
    rejects. *)
Definition acceptedUpdate (orderId : string)
  (updateStatusReq : UpdateOrderStatusRequest) (s : St) : option Order :=
  match UpdateOrderStatusRequest_Validate updateStatusReq with
  | Some _ => None
  | None =>
      match orders s !! orderId with
      | None => None
      | Some o =>
          match transitionError (rank (Status o))
                  (rank (req_Status updateStatusReq)) with
          | Some _ => None
          | None => Some o
          end
      end
  end.

(** Every key of [orders] is the [ID] of the order it holds. *)
Definition store_wf (s : St) : Prop :=
  forall k o, orders s !! k = Some o -> ID o = k.

Lemma detailsLoop_inl items :
  forall acc (s : St), exists l e s',
    detailsLoop items acc s = (inl (l, e), s') /\ sameStore s s'.
Proof.
  induction items as [| item rest IH]; intros acc s; simpl.
  - exists acc, None, s. split; [reflexivity | apply sameStore_refl].
  - unfold bind.
    pose proof (preserves_GetProductDetails (ProductId item) s) as Hs.
    destruct (GetProductDetails (ProductId item) s) as [[[pd |] | r] s1] eqn:E.
    + destruct (IH (acc ++ [mkItemResp (ProductId item) (pd_Name pd)
                   (pd_Description pd) (pd_Category pd) (pd_Price pd)
                   (ProductQuantity item)])%list s1)
        as (l & e & s' & Hl & Hs').
      exists l, e, s'. split; [exact Hl |].
      eapply sameStore_trans; [exact Hs | exact Hs'].
    + eexists _, _, s1. split; [reflexivity | exact Hs].
    + unfold GetProductDetails in E.
      destruct (rpc_GetProductDetails (ProductId item) (world s)).
      discriminate.
Qed.

Lemma GetOrderItemsDetailsList_inl orderId (s : St) :
  exists l e s',
    GetOrderItemsDetailsList orderId s = (inl (l, e), s') /\ sameStore s s'.
Proof. unfold GetOrderItemsDetailsList. apply detailsLoop_inl. Qed.

(** A request that does not reach the update is answered 400 or 404 and
    changes nothing. *)
Lemma UpdateOrderStatusHandler_rejected orderId req now (s : St) :
  acceptedUpdate orderId req s = None ->
  exists c reason,
    UpdateOrderStatusHandler orderId req now s
    = (mkResponse c (Text reason), s) /\
    (c = StatusBadRequest \/ c = StatusNotFound).
Proof.
  unfold acceptedUpdate, UpdateOrderStatusHandler, run, bind, lookupOrder.
  destruct (UpdateOrderStatusRequest_Validate req) as [err |].
  { intros _. eexists _, _. split; [reflexivity | left; reflexivity]. }
  destruct (orders s !! orderId) as [o |].
  2: { intros _. eexists _, _. split; [reflexivity | right; reflexivity]. }
  destruct (transitionError _ _) as [reason |]; [| discriminate].
  intros _. eexists _, _. split; [reflexivity | left; reflexivity].
Qed.

(** A request that reaches the update writes the order under its [ID], with
    the new status; the answer is 200 with the projection built by the
    handler, or 500 when the projection fails. *)
Lemma UpdateOrderStatusHandler_accepted orderId req now (s : St) o :
  acceptedUpdate orderId req s = Some o ->
  let o' := withStatus o (req_Status req) now in
  let result := UpdateOrderStatusHandler orderId req now s in
  orders (snd result) = <[ID o := o']> (orders s) /\
  orderItems (snd result) = orderItems s /\
  ((exists l,
      fst result
      = mkResponse StatusOK
          (Json (mkOrderResp (ID o') l 0 (Amount o') (Status o')
                   (DispatchedAt o') (CreatedAt o') (UpdatedAt o'))))
   \/ code (fst result) = StatusInternalServerError).
Proof.
  unfold acceptedUpdate, UpdateOrderStatusHandler, run, bind, lookupOrder.
  destruct (UpdateOrderStatusRequest_Validate req) as [err |]; [discriminate |].
  destruct (orders s !! orderId) as [o0 |]; [| discriminate].
  destruct (transitionError _ _) as [reason |]; [discriminate |].
  intros [= ->]. cbv zeta. unfold storeOrder.
  set (o' := withStatus o (req_Status req) now).
  assert (HID : ID o' = ID o).
  { unfold o', withStatus. destruct (String.eqb _ _); reflexivity. }
  set (s1 := mkState (<[ID o' := o']> (orders s)) (orderItems s) (world s)
               (calls s)).
  destruct (GetOrderItemsDetailsList_inl (ID o') s1)
    as (l & e & s2 & Hd & [Ho Hi]).
  rewrite Hd. simpl snd. simpl fst.
  assert (Hs2 : orders s2 = <[ID o := o']> (orders s) /\
                orderItems s2 = orderItems s).
  { rewrite Ho, Hi. unfold s1. simpl. rewrite HID. split; reflexivity. }
  destruct e as [err |].
  - unfold respond. simpl. destruct Hs2. repeat split; auto.
  - unfold writeOrder, respond. destruct (marshals _); simpl;
      destruct Hs2; repeat split; eauto.
Qed.

Lemma withStatus_ID o status now : ID (withStatus o status now) = ID o.
Proof. unfold withStatus. destruct (String.eqb _ _); reflexivity. Qed.

Lemma withStatus_Status o status now :
  Status (withStatus o status now) = status.
Proof. unfold withStatus. destruct (String.eqb _ _); reflexivity. Qed.

(** The update never stamps [UpdatedAt]: whatever the new status, the
    field keeps the value it had. *)
Lemma withStatus_UpdatedAt o status now :
  UpdatedAt (withStatus o status now) = UpdatedAt o.
Proof. unfold withStatus. destruct (String.eqb _ _); reflexivity. Qed.

Lemma withStatus_DispatchedAt o status now :
  DispatchedAt (withStatus o status now)
  = if String.eqb status OrderDispatched then now else DispatchedAt o.
Proof. unfold withStatus. destruct (String.eqb _ _); reflexivity. Qed.

Lemma withStatus_frame o status now :
  Discount (withStatus o status now) = Discount o /\
  Amount (withStatus o status now) = Amount o /\
  CreatedAt (withStatus o status now) = CreatedAt o.
Proof. unfold withStatus. destruct (String.eqb _ _); repeat split. Qed.

Lemma UpdateOrderStatusHandler_wf orderId req now (s : St) :
  store_wf s -> store_wf (snd (UpdateOrderStatusHandler orderId req now s)).
Proof.
  intros Hwf. destruct (acceptedUpdate orderId req s) as [o |] eqn:E.
  - destruct (UpdateOrderStatusHandler_accepted orderId req now s o E)
      as (Ho & _ & _).
    intros k x. rewrite Ho, lookup_insert. case_decide.
    + intros [= <-]. subst k. apply withStatus_ID.
    + apply Hwf.
  - destruct (UpdateOrderStatusHandler_rejected orderId req now s E)
      as (c & reason & -> & _). exact Hwf.
Qed.

Lemma acceptedUpdate_Some orderId req (s : St) o :
  acceptedUpdate orderId req s = Some o ->
  UpdateOrderStatusRequest_Validate req = None /\
  orders s !! orderId = Some o /\
  transitionError (rank (Status o)) (rank (req_Status req)) = None.
Proof.
  unfold acceptedUpdate.
  destruct (UpdateOrderStatusRequest_Validate req); [discriminate |].
  destruct (orders s !! orderId) as [o0 |]; [| discriminate].
  destruct (transitionError _ _) eqn:E; [discriminate |].
  intros [= <-]. auto.
Qed.

(** The [switch] of the handler and the rule of the specification agree on
    every pair of ranks. *)
Lemma transitionError_rankRule (c n : Z) :
  transitionError c n = None <-> rankRuleAccepts c n = true.
Proof.
  unfold transitionError, rankRuleAccepts.
  destruct (n <=? c); [split; discriminate |].
  destruct (Z.eqb_spec n 3) as [-> | H3]; simpl.
  { destruct (c =? 2); simpl; split; (reflexivity || discriminate). }
  destruct (Z.eqb_spec n 4) as [-> | H4]; simpl.
  { destruct (c =? 3); simpl; split; (reflexivity || discriminate). }
  destruct (Z.eqb_spec n 5) as [-> | H5]; simpl.
  { destruct (2 <? c); simpl; split; (reflexivity || discriminate). }
  split; reflexivity.
Qed.

Lemma elem_of_statuses (status : OrderStatus) :
  status ∈ statuses ->
  status = OrderPlaced \/ status = OrderDispatched \/
  status = OrderCompleted \/ status = OrderReturned \/
  status = OrderCancelled.
Proof.
  unfold statuses. rewrite !elem_of_cons, elem_of_nil. tauto.
Qed.

(** The map of the handler numbers the five states as the specification. *)
Lemma rank_specRank (status : OrderStatus) :
  status ∈ statuses -> rank status = specRank status.
Proof.
  intros H. apply elem_of_statuses in H.
  destruct H as [-> | [-> | [-> | [-> | ->]]]]; vm_compute; reflexivity.
Qed.

Lemma Validate_status (req : UpdateOrderStatusRequest) :
  req_Status req ∈ statuses -> UpdateOrderStatusRequest_Validate req = None.
Proof.
  intros H. apply elem_of_statuses in H.
  unfold UpdateOrderStatusRequest_Validate.
  destruct H as [-> | [-> | [-> | [-> | ->]]]]; reflexivity.
Qed.

Ltac decide_pair :=
  unfold legalTransitions;
  rewrite !elem_of_cons, elem_of_nil;
  split;
  [ first [ discriminate
          | intros _;
            first [ left; reflexivity
                  | right; left; reflexivity
                  | right; right; left; reflexivity
                  | right; right; right; left; reflexivity
                  | right; right; right; right; left; reflexivity ] ]
  | first [ reflexivity
          | intros H;
            repeat (destruct H as [H | H]; [discriminate H |]);
            contradiction ] ].

(** The rule of the specification accepts exactly the five legal
    transitions. *)
Lemma rankRule_legal (current requested : OrderStatus) :
  current ∈ statuses -> requested ∈ statuses ->
  rankRuleAccepts (specRank current) (specRank requested) = true <->
  (current, requested) ∈ legalTransitions.
Proof.
  intros Hc Hr. apply elem_of_statuses in Hc, Hr.
  destruct Hc as [-> | [-> | [-> | [-> | ->]]]];
    destruct Hr as [-> | [-> | [-> | [-> | ->]]]];
    match goal with
    | |- ?b = true <-> _ => let v := eval vm_compute in b in change b with v
    end; decide_pair.
Qed.

(** C1. For a stored order and a request, both with one of the five
    statuses, the rank rule of the specification decides the handler: the
    rule accepts exactly the five legal transitions; when it rejects, the
    handler answers 400 and leaves the state as it was; when it accepts,
    the handler writes the order with the requested status and does not
    answer 400. *)
Theorem status_update_follows_rank_rule orderId req now (s : St) o :
  orders s !! orderId = Some o ->
  Status o ∈ statuses -> req_Status req ∈ statuses ->
  let accepts :=
    rankRuleAccepts (specRank (Status o)) (specRank (req_Status req)) in
  let result := UpdateOrderStatusHandler orderId req now s in
  (accepts = true <-> (Status o, req_Status req) ∈ legalTransitions) /\
  (accepts = false ->
   snd result = s /\ code (fst result) = StatusBadRequest) /\
  (accepts = true ->
   orders (snd result) !! ID o = Some (withStatus o (req_Status req) now) /\
   code (fst result) <> StatusBadRequest).
Proof.
  intros Ho Hc Hr. cbv zeta.
  split; [apply rankRule_legal; assumption |].
  rewrite <- (rank_specRank _ Hc), <- (rank_specRank _ Hr).
  assert (Hacc : acceptedUpdate orderId req s
                 = if rankRuleAccepts (rank (Status o))
                        (rank (req_Status req))
                   then Some o else None).
  { unfold acceptedUpdate. rewrite (Validate_status req Hr), Ho.
    destruct (transitionError _ _) eqn:E;
      destruct (rankRuleAccepts _ _) eqn:R; try reflexivity.
    - apply transitionError_rankRule in R. congruence.
    - apply transitionError_rankRule in E. congruence. }
  split; intros Hf; rewrite Hf in Hacc.
  - destruct (UpdateOrderStatusHandler_rejected orderId req now s Hacc)
      as (c & reason & Hrej & _).
    rewrite Hrej. split; [reflexivity |]. simpl.
    unfold acceptedUpdate in Hacc.
    unfold UpdateOrderStatusHandler, run, bind, lookupOrder in Hrej.
    rewrite (Validate_status req Hr), Ho in *.
    destruct (transitionError _ _); [| discriminate].
    injection Hrej as <- _. reflexivity.
  - destruct (UpdateOrderStatusHandler_accepted orderId req now s o Hacc)
      as (Hord & _ & Hresp).
    split.
    + rewrite Hord. apply lookup_insert_eq.
    + destruct Hresp as [[l ->] | ->]; discriminate.
Qed.

(** ** Timestamps of an update *)

(** One request to the status handler: the order id of the path, the
    decoded body and the clock. *)
Definition Update : Type := string * UpdateOrderStatusRequest * string.

Definition step (u : Update) (s : St) : St :=
  let '(orderId, req, now) := u in
  snd (UpdateOrderStatusHandler orderId req now s).

(** The state after a sequence of requests. *)
Fixpoint updates (l : list Update) (s : St) : St :=
  match l with
  | [] => s
  | u :: rest => updates rest (step u s)
  end.

(** The request [u] makes the handler run the assignment of [DispatchedAt]
    on the order [target]: it reaches the update, of that order, and the
    new status is [OrderDispatched]. *)
Definition stampsDispatchedAt (target : string) (u : Update) (s : St)
  : bool :=
  let '(orderId, req, _) := u in
  match acceptedUpdate orderId req s with
  | Some o =>
      String.eqb (ID o) target && String.eqb (req_Status req) OrderDispatched
  | None => false
  end.

(** How often a sequence of requests writes [DispatchedAt] of [target]. *)
Fixpoint dispatchStamps (target : string) (l : list Update) (s : St) : nat :=
  match l with
  | [] => 0
  | u :: rest =>
      ((if stampsDispatchedAt target u s then 1 else 0)
       + dispatchStamps target rest (step u s))%nat
  end.

Definition rankOf (s : St) (target : string) : Z :=
  match orders s !! target with
  | Some o => rank (Status o)
  | None => 0
  end.

Lemma step_wf u (s : St) : store_wf s -> store_wf (step u s).
Proof.
  destruct u as [[orderId req] now]. apply UpdateOrderStatusHandler_wf.
Qed.

Lemma updates_wf l : forall s : St, store_wf s -> store_wf (updates l s).
Proof.
  induction l as [| u rest IH]; intros s Hwf; simpl; [exact Hwf |].
  apply IH, step_wf, Hwf.
Qed.

(** What one request does to the order [target]. *)
Lemma step_target target u (s : St) :
  store_wf s ->
  let '(orderId, req, now) := u in
  match acceptedUpdate orderId req s with
  | Some o =>
      if String.eqb (ID o) target
      then orders s !! target = Some o /\
           orders (step u s) !! target
           = Some (withStatus o (req_Status req) now) /\
           rank (Status o) < rank (req_Status req)
      else orders (step u s) !! target = orders s !! target
  | None => step u s = s
  end.
Proof.
  intros Hwf. destruct u as [[orderId req] now].
  destruct (acceptedUpdate orderId req s) as [o |] eqn:E.
  - destruct (UpdateOrderStatusHandler_accepted orderId req now s o E)
      as (Hord & _ & _).
    apply acceptedUpdate_Some in E as (_ & Ho & Ht).
    unfold step. rewrite Hord.
    destruct (String.eqb_spec (ID o) target) as [<- | Hne].
    + rewrite lookup_insert_eq. rewrite <- (Hwf _ _ Ho) in Ho.
      repeat split; auto.
      unfold transitionError in Ht.
      destruct (Z.leb_spec (rank (req_Status req)) (rank (Status o)));
        [discriminate | lia].
    + apply lookup_insert_ne, Hne.
  - destruct (UpdateOrderStatusHandler_rejected orderId req now s E)
      as (c & reason & Hr & _).
    unfold step. rewrite Hr. reflexivity.
Qed.

Lemma rank_Dispatched : rank OrderDispatched = 2.
Proof. vm_compute. reflexivity. Qed.

(** The rank of an order never goes down, and a request that stamps
    [DispatchedAt] takes it from below 2 to 2. *)
Lemma step_rank target u (s : St) :
  store_wf s ->
  rankOf s target <= rankOf (step u s) target /\
  (stampsDispatchedAt target u s = true ->
   rankOf s target < 2 /\ rankOf (step u s) target = 2).
Proof.
  intros Hwf. pose proof (step_target target u s Hwf) as H.
  unfold stampsDispatchedAt, rankOf. destruct u as [[orderId req] now].
  destruct (acceptedUpdate orderId req s) as [o |].
  - destruct (String.eqb (ID o) target).
    + destruct H as (H0 & H1 & Hlt). rewrite H0, H1, withStatus_Status.
      split; [lia |]. simpl. intros Hd. apply String.eqb_eq in Hd.
      rewrite Hd in *. rewrite rank_Dispatched in *. lia.
    + rewrite H. split; [lia | discriminate].
  - rewrite H. split; [lia | discriminate].
Qed.

(** A request that does not stamp leaves [DispatchedAt] of [target] as it
    was; one that stamps leaves the order Dispatched, with the clock of the
    request in [DispatchedAt]. *)
Lemma step_DispatchedAt target u (s : St) :
  store_wf s ->
  if stampsDispatchedAt target u s
  then exists o',
         orders (step u s) !! target = Some o' /\
         Status o' = OrderDispatched /\ DispatchedAt o' = snd u
  else DispatchedAt <$> orders (step u s) !! target
       = DispatchedAt <$> orders s !! target.
Proof.
  intros Hwf. pose proof (step_target target u s Hwf) as H.
  unfold stampsDispatchedAt. destruct u as [[orderId req] now].
  destruct (acceptedUpdate orderId req s) as [o |].
  - destruct (String.eqb (ID o) target); cbn [andb].
    + destruct H as (H0 & H1 & _).
      destruct (String.eqb_spec (req_Status req) OrderDispatched) as [Hd | Hd].
      * eexists. split; [exact H1 |].
        rewrite withStatus_Status, withStatus_DispatchedAt, Hd.
        split; reflexivity.
      * rewrite H0, H1. simpl. rewrite withStatus_DispatchedAt.
        apply String.eqb_neq in Hd. rewrite Hd. reflexivity.
    + rewrite H. reflexivity.
  - rewrite H. reflexivity.
Qed.

Lemma dispatchStamps_bound target l :
  forall s : St, store_wf s ->
    (2 <= rankOf s target -> dispatchStamps target l s = 0%nat) /\
    (dispatchStamps target l s <= 1)%nat.
Proof.
  induction l as [| u rest IH]; intros s Hwf; simpl.
  - split; [reflexivity | lia].
  - destruct (IH (step u s) (step_wf u s Hwf)) as [IH0 IH1].
    destruct (step_rank target u s Hwf) as [Hmono Hstamp].
    destruct (stampsDispatchedAt target u s).
    + destruct (Hstamp eq_refl) as [Hlt Heq].
      split; [lia |]. rewrite IH0; lia.
    + split; [intros H2; rewrite IH0; lia | lia].
Qed.

(** C5. Along any sequence of status requests on a well-formed store, the
    assignment of [DispatchedAt] runs at most once for a given order; it
    runs only on an accepted transition to Dispatched, which leaves the
    order Dispatched with the clock of the request in the field; and when
    it does not run the field of the order keeps its value. *)
Theorem dispatchedAt_written_at_most_once target l (s : St) :
  store_wf s ->
  (dispatchStamps target l s <= 1)%nat /\
  (dispatchStamps target l s = 0%nat ->
   DispatchedAt <$> orders (updates l s) !! target
   = DispatchedAt <$> orders s !! target) /\
  (forall u, stampsDispatchedAt target u s = true ->
   exists o',
     orders (step u s) !! target = Some o' /\
     Status o' = OrderDispatched /\ DispatchedAt o' = snd u /\
     dispatchStamps target l (step u s) = 0%nat).
Proof.
  intros Hwf. split; [apply dispatchStamps_bound, Hwf |]. split.
  - revert s Hwf. induction l as [| u rest IH]; intros s Hwf; simpl;
      [reflexivity |].
    pose proof (step_DispatchedAt target u s Hwf) as Hstep.
    destruct (stampsDispatchedAt target u s); [discriminate |].
    intros H0. rewrite IH; [exact Hstep | apply step_wf, Hwf | exact H0].
  - intros u Hu.
    pose proof (step_DispatchedAt target u s Hwf) as Hstep.
    rewrite Hu in Hstep. destruct Hstep as (o' & Ho' & Hst & Hd).
    exists o'. repeat split; auto.
    apply dispatchStamps_bound; [apply step_wf, Hwf |].
    apply (step_rank target u s Hwf) in Hu. lia.
Qed.

(** C10. When the status handler answers 200, the order stored under the
    id keeps its [ID], [Discount], [Amount] and [CreatedAt] (and its
    [UpdatedAt]); its [Status] is the requested one and its [DispatchedAt]
    changes only when that is dispatched. The projection in the answer is
    built from that order but its discount is 0 whatever the stored
    [Discount] is. *)
Theorem status_update_keeps_order_but_drops_discount
  orderId req now (s : St) o r :
  store_wf s -> orders s !! orderId = Some o ->
  fst (UpdateOrderStatusHandler orderId req now s)
  = mkResponse StatusOK (Json r) ->
  exists o',
    orders (snd (UpdateOrderStatusHandler orderId req now s)) !! orderId
    = Some o' /\
    ID o' = ID o /\ Discount o' = Discount o /\ Amount o' = Amount o /\
    CreatedAt o' = CreatedAt o /\
    resp_Discount r = 0 /\
    resp_ID r = ID o' /\ resp_Amount r = Amount o' /\
    resp_Status r = Status o' /\ resp_CreatedAt r = CreatedAt o' /\
    Status o' = req_Status req /\ UpdatedAt o' = UpdatedAt o /\
    (req_Status req <> OrderDispatched -> DispatchedAt o' = DispatchedAt o).
Proof.
  intros Hwf Ho Hresp.
  destruct (acceptedUpdate orderId req s) as [o0 |] eqn:E.
  - pose proof (acceptedUpdate_Some _ _ _ _ E) as (_ & Ho0 & _).
    assert (o0 = o) by congruence. subst o0.
    destruct (UpdateOrderStatusHandler_accepted orderId req now s o E)
      as (Hord & _ & Hr).
    exists (withStatus o (req_Status req) now).
    destruct (withStatus_frame o (req_Status req) now) as (Hd & Ha & Hc).
    rewrite Hord, <- (Hwf _ _ Ho), lookup_insert_eq, withStatus_ID.
    destruct Hr as [[l Hr] | Hr].
    + rewrite Hr in Hresp. injection Hresp as <-. simpl.
      rewrite withStatus_ID, withStatus_Status, withStatus_UpdatedAt,
        withStatus_DispatchedAt.
      repeat split; auto.
      intros Hne. apply String.eqb_neq in Hne. rewrite Hne. reflexivity.
    + rewrite Hresp in Hr. discriminate.
  - destruct (UpdateOrderStatusHandler_rejected orderId req now s E)
      as (c & reason & Hr & _).
    rewrite Hr in Hresp. discriminate.
Qed.

(** ** Placing an order *)

Section Placement.

Variable ToLower : string -> string.

Lemma preserves_priceItem orderId acc item :
  preserves (priceItem ToLower orderId acc item).
Proof.
  unfold priceItem. destruct acc as [[a n] l]. repeat frame_step.
Qed.

#[local] Hint Resolve preserves_priceItem : frame.

(** ** Structural validation *)

(** The product ids of a request as the first loop compares them. *)
Definition lowerIds (items : list CreateOrderItemsRequest) : list string :=
  map (fun item => ToLower (req_ProductId item)) items.

Definition quantityInRange (item : CreateOrderItemsRequest) : Prop :=
  1 <= req_Quantity item <= 10.

Lemma existsb_eqb_elem (x : string) (l : list string) :
  existsb (String.eqb x) l = true <-> x ∈ l.
Proof.
  rewrite existsb_exists, list_elem_of_In. split.
  - intros [y [Hy Heq]]. apply String.eqb_eq in Heq. congruence.
  - intros H. exists x. split; [exact H | apply String.eqb_refl].
Qed.

Lemma repeated_false (items : list CreateOrderItemsRequest) :
  forall uniqueItems,
    repeated ToLower uniqueItems items = false <->
    NoDup (lowerIds items) /\
    (forall x, x ∈ lowerIds items -> x ∉ uniqueItems).
Proof.
  induction items as [| item rest IH]; intros seen; simpl.
  - split; [intros _ | reflexivity].
    split; [constructor | intros x Hx; inversion Hx].
  - destruct (existsb (String.eqb (ToLower (req_ProductId item))) seen)
      eqn:Hseen.
    + apply existsb_eqb_elem in Hseen. split; [discriminate |].
      intros [_ Hnot]. exfalso. apply (Hnot _ (list_elem_of_here _ _)), Hseen.
    + assert (Hfresh : ToLower (req_ProductId item) ∉ seen).
      { intros Hin. apply existsb_eqb_elem in Hin. congruence. }
      rewrite IH, NoDup_cons. split.
      * intros [Hnd Hnot]. repeat split.
        -- intros Hin. apply (Hnot _ Hin), elem_of_app. right. constructor.
        -- exact Hnd.
        -- intros x Hx. apply elem_of_cons in Hx as [-> | Hx];
             [exact Hfresh |].
           intros Hin. apply (Hnot _ Hx), elem_of_app. left. exact Hin.
      * intros [[Hhd Hnd] Hnot]. split; [exact Hnd |].
        intros x Hx Hin. apply elem_of_app in Hin as [Hin | Hin].
        -- apply (Hnot x); [apply elem_of_cons; right; exact Hx | exact Hin].
        -- apply list_elem_of_singleton in Hin. subst x. contradiction.
Qed.

Lemma checkItems_None (items : list CreateOrderItemsRequest) :
  checkItems items = None <->
  Forall (fun item => req_ProductId item <> "" /\ quantityInRange item) items.
Proof.
  unfold quantityInRange. induction items as [| item rest IH]; simpl.
  - split; [constructor | reflexivity].
  - rewrite Forall_cons.
    destruct (String.eqb_spec (req_ProductId item) "") as [He | Hne].
    + split; [discriminate | intros [[Hc _] _]; contradiction].
    + destruct (0 <? req_Quantity item) eqn:H0;
        destruct (req_Quantity item <=? 10) eqn:H10; simpl;
        rewrite ?IH; (split; [try discriminate | intros [[_ Hq] Hr]]);
        try (exfalso; lia); try tauto.
      intros Hr. split; [split; [exact Hne | lia] | exact Hr].
Qed.

(** What the validation accepts. *)
Lemma Validate_None (oReq : CreateOrderRequest) :
  CreateOrderRequest_Validate ToLower oReq = None <->
  Items oReq <> [] /\ NoDup (lowerIds (Items oReq)) /\
  Forall (fun item => req_ProductId item <> "" /\ quantityInRange item)
    (Items oReq).
Proof.
  unfold CreateOrderRequest_Validate. destruct (Items oReq) as [| i l] eqn:E.
  - simpl. split; [discriminate | intros [H _]; contradiction].
  - change (length (i :: l) =? 0)%nat with false. cbv iota.
    destruct (repeated ToLower [] (i :: l)) eqn:Hrep.
    + split; [discriminate |]. intros [_ [Hnd _]]. exfalso.
      assert (repeated ToLower [] (i :: l) = false); [| congruence].
      apply repeated_false. split; [exact Hnd | intros x _ Hx; inversion Hx].
    + apply repeated_false in Hrep as [Hnd _].
      rewrite checkItems_None. split; [intros H | tauto].
      repeat split; [discriminate | exact Hnd | exact H].
Qed.

(** A request the validation refuses is answered 400 with the reason, in the
    state the handler started in: nothing was written or called. *)
Lemma PlaceOrderHandler_invalid oReq newId currentTime (s : St) err :
  CreateOrderRequest_Validate ToLower oReq = Some err ->
  PlaceOrderHandler ToLower oReq newId currentTime s
  = (mkResponse StatusBadRequest (Text err), s).
Proof. intros H. unfold PlaceOrderHandler. rewrite H. reflexivity. Qed.

Lemma repeated_ids_not_NoDup (items : list CreateOrderItemsRequest) i j a b :
  i <> j -> items !! i = Some a -> items !! j = Some b ->
  ToLower (req_ProductId a) = ToLower (req_ProductId b) ->
  ~ NoDup (lowerIds items).
Proof.
  intros Hij Ha Hb Heq Hnd. apply Hij.
  eapply (proj1 (NoDup_alt _) Hnd i j (ToLower (req_ProductId a)));
    unfold lowerIds; rewrite list_lookup_fmap.
  - rewrite Ha. reflexivity.
  - rewrite Hb. simpl. congruence.
Qed.

(** C6. A request with two line items whose product ids are equal once
    lower-cased is answered 400 "product id is repeated" by the structural
    validation; the state returned is the state the handler started in, so
    no call to the product service was issued (the log of calls is the
    same) and neither map of the store was written. *)
Theorem duplicate_product_rejected_before_catalog
  oReq newId currentTime (s : St) i j a b :
  i <> j -> Items oReq !! i = Some a -> Items oReq !! j = Some b ->
  ToLower (req_ProductId a) = ToLower (req_ProductId b) ->
  PlaceOrderHandler ToLower oReq newId currentTime s
  = (mkResponse StatusBadRequest (Text "product id is repeated"), s).
Proof.
  intros Hij Ha Hb Heq. apply PlaceOrderHandler_invalid.
  unfold CreateOrderRequest_Validate.
  destruct (Items oReq) as [| i0 l] eqn:E; [rewrite lookup_nil in Ha; discriminate |].
  change (length (i0 :: l) =? 0)%nat with false. cbv iota.
  destruct (repeated ToLower [] (i0 :: l)) eqn:Hrep; [reflexivity |].
  apply repeated_false in Hrep as [Hnd _]. exfalso.
  exact (repeated_ids_not_NoDup _ i j a b Hij Ha Hb Heq Hnd).
Qed.

(** C7. In a request with no other defect (some item, no repeated id, no
    empty id) the validation accepts exactly when every quantity is between
    1 and 10; and whatever the rest of the request, one quantity outside 1
    to 10 makes the handler answer 400 without touching the state. *)
Theorem quantity_accepted_iff_in_range oReq :
  (Items oReq <> [] -> NoDup (lowerIds (Items oReq)) ->
   Forall (fun item => req_ProductId item <> "") (Items oReq) ->
   (CreateOrderRequest_Validate ToLower oReq = None <->
    Forall quantityInRange (Items oReq)))
  /\
  (forall item, item ∈ Items oReq -> ~ quantityInRange item ->
   exists err,
     CreateOrderRequest_Validate ToLower oReq = Some err /\
     forall newId currentTime (s : St),
       PlaceOrderHandler ToLower oReq newId currentTime s
       = (mkResponse StatusBadRequest (Text err), s)).
Proof.
  split.
  - intros Hne Hnd Hids. rewrite Validate_None, !Forall_forall in *.
    split; [intros [_ [_ H]] x Hx; apply (H x Hx) |].
    intros H. repeat split; auto; apply H; assumption.
  - intros item Hin Hbad.
    destruct (CreateOrderRequest_Validate ToLower oReq) as [err |] eqn:E.
    + exists err. split; [reflexivity |]. intros.
      apply PlaceOrderHandler_invalid, E.
    + exfalso. apply Validate_None in E as [_ [_ H]].
      rewrite Forall_forall in H. apply Hbad, (H item Hin).
Qed.

(** C8, as the code has it. A request with a line item whose product id is
    the empty string is answered 400 by the structural validation, in the
    state the handler started in (no call to the product service). Only the
    empty string is refused; an id of white space passes. *)
Theorem empty_product_id_rejected oReq item :
  item ∈ Items oReq -> req_ProductId item = "" ->
  exists err,
    CreateOrderRequest_Validate ToLower oReq = Some err /\
    forall newId currentTime (s : St),
      PlaceOrderHandler ToLower oReq newId currentTime s
      = (mkResponse StatusBadRequest (Text err), s).
Proof.
  intros Hin Hempty.
  destruct (CreateOrderRequest_Validate ToLower oReq) as [err |] eqn:E.
  - exists err. split; [reflexivity |]. intros.
    apply PlaceOrderHandler_invalid, E.
  - exfalso. apply Validate_None in E as [_ [_ H]].
    rewrite Forall_forall in H. destruct (H item Hin) as [Hne _].
    contradiction.
Qed.

(** ** The placement workflow, phase by phase *)

(** The handler from the inventory adjustment on, for the order [o] just
    written. *)
Definition finish (oReq : CreateOrderRequest) (o : Order) : M Response :=
  for_each adjustItem (Items oReq) ;;;
  details <- GetOrderItemsDetailsList (ID o) ;;
  match snd details with
  | Some err => respond StatusInternalServerError (Text err)
  | None =>
      writeOrder
        (mkOrderResp (ID o) (fst details) (Discount o) (Amount o)
           (Status o) "" (CreatedAt o) (UpdatedAt o))
  end.

(** The order, its line items and the state right after the two maps have
    been written, when the handler gets that far: the validation, the stock
    check and the pricing have all passed. *)
Definition persisted (oReq : CreateOrderRequest) (newId currentTime : string)
  (s : St) : option (Order * list OrderItem * St) :=
  match CreateOrderRequest_Validate ToLower oReq with
  | Some _ => None
  | None =>
      match for_each checkStock (Items oReq) s with
      | (inr _, _) => None
      | (inl _, s1) =>
          match for_fold (priceItem ToLower newId) (Items oReq)
                  (0%float, 0, []) s1 with
          | (inr _, _) => None
          | (inl (orderAmount, numberOfPremiumProducts, oItems), s2) =>
              let o :=
                applyDiscount (newOrder newId currentTime) orderAmount
                  numberOfPremiumProducts in
              Some (o, oItems, snd (putOrder o oItems s2))
          end
      end
  end.

Lemma snd_run (m : M Response) (s : St) : snd (run m s) = snd (m s).
Proof. unfold run. destruct (m s) as [[r | r] s']; reflexivity. Qed.

Lemma applyDiscount_frame o orderAmount n :
  ID (applyDiscount o orderAmount n) = ID o /\
  Status (applyDiscount o orderAmount n) = Status o /\
  DispatchedAt (applyDiscount o orderAmount n) = DispatchedAt o /\
  CreatedAt (applyDiscount o orderAmount n) = CreatedAt o /\
  UpdatedAt (applyDiscount o orderAmount n) = UpdatedAt o.
Proof. unfold applyDiscount. destruct (3 <=? n); repeat split. Qed.

Lemma preserves_finish oReq o : preserves (finish oReq o).
Proof. unfold finish. repeat frame_step. Qed.

Lemma run_bind {A} (m : M A) (k : A -> M Response) (s : St) :
  run (bind m k) s
  = match m s with
    | (inl a, s') => run (k a) s'
    | (inr r, s') => (r, s')
    end.
Proof. unfold run, bind. destruct (m s) as [[a | r] s']; reflexivity. Qed.

(** The stock check and the pricing answer 404 when they stop. *)
Lemma checkStock_code items :
  forall (s : St) r s1,
    for_each checkStock items s = (inr r, s1) -> code r = StatusNotFound.
Proof.
  induction items as [| item rest IH]; intros s r s1; simpl;
    [discriminate |].
  unfold bind at 1, checkStock, bind, GetProductDetails.
  destruct (rpc_GetProductDetails _ _) as [[pd |] w].
  - destruct (pd_Quantity pd <? req_Quantity item); simpl.
    + intros [= <- _]. reflexivity.
    + apply IH.
  - intros [= <- _]. reflexivity.
Qed.

Lemma priceItem_code orderId items :
  forall acc (s : St) r s1,
    for_fold (priceItem ToLower orderId) items acc s = (inr r, s1) ->
    code r = StatusNotFound.
Proof.
  induction items as [| item rest IH]; intros [[a n] l] s r s1; simpl;
    [discriminate |].
  unfold bind at 1, bind, GetProductDetails.
  destruct (rpc_GetProductDetails _ _) as [[pd |] w].
  - apply IH.
  - intros [= <- _]. reflexivity.
Qed.

(** The handler in terms of [persisted]: it goes on with [finish] from the
    state with the order written, or it has answered before. *)
Lemma PlaceOrderHandler_split oReq newId currentTime (s : St) :
  match persisted oReq newId currentTime s with
  | Some (o, oItems, s3) =>
      PlaceOrderHandler ToLower oReq newId currentTime s
      = run (finish oReq o) s3 /\
      orders s3 = <[newId := o]> (orders s) /\
      orderItems s3 = <[newId := oItems]> (orderItems s) /\
      ID o = newId /\ Status o = OrderPlaced
  | None =>
      sameStore s (snd (PlaceOrderHandler ToLower oReq newId currentTime s))
      /\ (code (fst (PlaceOrderHandler ToLower oReq newId currentTime s))
          = StatusBadRequest \/
          code (fst (PlaceOrderHandler ToLower oReq newId currentTime s))
          = StatusNotFound)
  end.
Proof.
  unfold persisted, PlaceOrderHandler.
  destruct (CreateOrderRequest_Validate ToLower oReq).
  { split; [apply sameStore_refl | left; reflexivity]. }
  rewrite run_bind.
  pose proof (preserves_for_each checkStock (Items oReq)
                preserves_checkStock s) as Hc.
  pose proof (checkStock_code (Items oReq) s) as Hcode1.
  destruct (for_each checkStock (Items oReq) s) as [[[] | r] s1].
  2: { split; [exact Hc | right; eapply Hcode1; reflexivity]. }
  cbv zeta. rewrite run_bind.
  change (ID (newOrder newId currentTime)) with newId.
  pose proof (preserves_for_fold (priceItem ToLower newId) (Items oReq)
                (preserves_priceItem newId) (0%float, 0, []) s1) as Hp.
  pose proof (priceItem_code newId (Items oReq) (0%float, 0, []) s1)
    as Hcode2.
  destruct (for_fold (priceItem ToLower newId) (Items oReq) _ s1)
    as [[[[a n] ois] | r] s2].
  2: { simpl in *. split.
       - eapply sameStore_trans; [exact Hc | exact Hp].
       - right. eapply Hcode2. reflexivity. }
  destruct (applyDiscount_frame (newOrder newId currentTime) a n)
    as (HID & HSt & _).
  simpl in HID, HSt. rewrite run_bind. unfold putOrder. cbv beta iota.
  split; [reflexivity |].
  destruct Hc as [Hc1 Hc2], Hp as [Hp1 Hp2]. simpl in Hc1, Hc2, Hp1, Hp2.
  simpl. rewrite HID, Hp1, Hp2, Hc1, Hc2. repeat split; auto.
Qed.

(** Once the order is written the handler only calls the product service:
    the store it returns is the store with the new order and its items,
    whatever the answer is. *)
Lemma PlaceOrderHandler_persisted oReq newId currentTime (s : St)
  o oItems s3 :
  persisted oReq newId currentTime s = Some (o, oItems, s3) ->
  PlaceOrderHandler ToLower oReq newId currentTime s = run (finish oReq o) s3
  /\ orders (snd (PlaceOrderHandler ToLower oReq newId currentTime s))
     = <[newId := o]> (orders s)
  /\ orderItems (snd (PlaceOrderHandler ToLower oReq newId currentTime s))
     = <[newId := oItems]> (orderItems s)
  /\ orders s3 = <[newId := o]> (orders s)
  /\ orderItems s3 = <[newId := oItems]> (orderItems s)
  /\ ID o = newId /\ Status o = OrderPlaced.
Proof.
  intros E. pose proof (PlaceOrderHandler_split oReq newId currentTime s) as H.
  rewrite E in H. destruct H as (Heq & Ho & Hi & HID & HSt).
  pose proof (preserves_finish oReq o s3) as [Hf1 Hf2].
  rewrite Heq, snd_run, Hf1, Hf2. repeat split; auto.
Qed.

(** Before the order is written nothing is: a request that does not get as
    far as the two assignments is answered 400 or 404 with the store it
    found. *)
Lemma PlaceOrderHandler_not_persisted oReq newId currentTime (s : St) :
  persisted oReq newId currentTime s = None ->
  sameStore s (snd (PlaceOrderHandler ToLower oReq newId currentTime s)) /\
  (code (fst (PlaceOrderHandler ToLower oReq newId currentTime s))
   = StatusBadRequest \/
   code (fst (PlaceOrderHandler ToLower oReq newId currentTime s))
   = StatusNotFound).
Proof.
  intros E. pose proof (PlaceOrderHandler_split oReq newId currentTime s) as H.
  rewrite E in H. exact H.
Qed.

(** Both handlers keep every order under its own id. *)
Lemma PlaceOrderHandler_wf oReq newId currentTime (s : St) :
  store_wf s ->
  store_wf (snd (PlaceOrderHandler ToLower oReq newId currentTime s)).
Proof.
  intros Hwf.
  destruct (persisted oReq newId currentTime s) as [[[o oItems] s3] |] eqn:E.
  - destruct (PlaceOrderHandler_persisted _ _ _ _ _ _ _ E)
      as (_ & Ho & _ & _ & _ & HID & _).
    intros k x. rewrite Ho, lookup_insert. case_decide.
    + intros [= <-]. congruence.
    + apply Hwf.
  - destruct (PlaceOrderHandler_not_persisted _ _ _ _ E) as [[Ho _] _].
    intros k x. rewrite Ho. apply Hwf.
Qed.

Lemma for_each_app {A} (f : A -> M unit) (pre post : list A) (s : St) :
  for_each f (pre ++ post) s
  = match for_each f pre s with
    | (inl _, s') => for_each f post s'
    | (inr r, s') => (inr r, s')
    end.
Proof.
  revert s. induction pre as [| a pre IH]; intros s; simpl; [reflexivity |].
  unfold bind at 1 2. destruct (f a s) as [[[] | r] s1]; [apply IH | reflexivity].
Qed.

(** ** Failure of the inventory adjustment *)

(** C9. Take a placement that has written its order [o] and reached the
    state [s3], and a line item for which the adjustment fails after the
    items before it went through: the product cannot be fetched, or it is
    fetched and the update of the quantity returns an error. Then the
    handler answers with the error of that product id (404 when it cannot
    be fetched, 500 when the update fails), and in the state it returns
    the order is still in the store under its id, with status placed, and so
    are its line items: nothing takes it back. *)
Theorem adjustment_failure_leaves_order_placed
  oReq newId currentTime (s : St) o oItems s3 pre item post sa resp :
  persisted oReq newId currentTime s = Some (o, oItems, s3) ->
  Items oReq = (pre ++ item :: post)%list ->
  for_each adjustItem pre s3 = (inl tt, sa) ->
  (fst (rpc_GetProductDetails (req_ProductId item) (world sa)) = None /\
   resp = mkResponse StatusNotFound
            (Text ("product with id: " +:+ req_ProductId item +:+
                   " does not exist while updating product quantity in the order inventory")))
  \/
  (exists pd w,
     rpc_GetProductDetails (req_ProductId item) (world sa) = (Some pd, w) /\
     fst (rpc_UpdateProductQuantity (req_ProductId item)
            (wrap64 (pd_Quantity pd - req_Quantity item)) w) = false /\
     resp = mkResponse StatusInternalServerError
              (Text ("inventory for product with id: " +:+
                     req_ProductId item +:+ " could not be updated"))) ->
  exists s4,
    PlaceOrderHandler ToLower oReq newId currentTime s = (resp, s4) /\
    orders s4 !! newId = Some o /\ Status o = OrderPlaced /\
    orderItems s4 !! newId = Some oItems.
Proof.
  intros Hp Hitems Hpre Hfail.
  destruct (PlaceOrderHandler_persisted _ _ _ _ _ _ _ Hp)
    as (Heq & Ho & Hi & _ & _ & _ & HSt).
  assert (Hrun : exists s4, run (finish oReq o) s3 = (resp, s4)).
  { unfold finish. rewrite run_bind, Hitems, for_each_app, Hpre.
    simpl. unfold bind at 1, adjustItem, bind at 1, GetProductDetails.
    destruct Hfail as [[Hget ->] | (pd & w & Hget & Hupd & ->)].
    - destruct (rpc_GetProductDetails _ _) as [[pd |] w]; [discriminate |].
      eexists. reflexivity.
    - rewrite Hget. unfold bind, UpdateProductQuantity. simpl.
      destruct (rpc_UpdateProductQuantity _ _ _) as [ok w'].
      simpl in Hupd. subst ok. eexists. reflexivity. }
  destruct Hrun as [s4 Hrun]. exists s4.
  rewrite Heq, Hrun in *. simpl in Ho, Hi.
  rewrite Ho, Hi, !lookup_insert_eq. repeat split; auto.
Qed.

(** ** The stock check *)

(** The catalog [cat] has the product of the line item, in the quantity
    asked for. *)
Definition inStock (cat : string -> option GetProductDetailsResponse)
  (item : CreateOrderItemsRequest) : Prop :=
  exists pd,
    cat (req_ProductId item) = Some pd /\
    req_Quantity item <= pd_Quantity pd.

(** The answer of the stock check for a line item that is not in stock. *)
Definition stockRejection (cat : string -> option GetProductDetailsResponse)
  (item : CreateOrderItemsRequest) : Response :=
  match cat (req_ProductId item) with
  | None =>
      mkResponse StatusNotFound
        (Text ("product with id: " +:+ req_ProductId item +:+
               " does not exist"))
  | Some _ =>
      mkResponse StatusNotFound
        (Text ("product with id: " +:+ req_ProductId item +:+
               " does not have enough inventory"))
  end.

(** The catalog answers every read in the world [w] as [cat] does, and
    a read leaves it in [w]. *)
Definition readsAs (cat : string -> option GetProductDetailsResponse)
  (w : World) : Prop :=
  forall productId, rpc_GetProductDetails productId w = (cat productId, w).

(** On such a catalog the first loop stops at the first line item that is
    not in stock, with the answer for that item. *)
Lemma checkStock_readsAs cat items :
  forall s : St, readsAs cat (world s) ->
    (Forall (inStock cat) items /\
     exists s', for_each checkStock items s = (inl tt, s') /\
                world s' = world s)
    \/
    (exists pre bad post s',
       items = (pre ++ bad :: post)%list /\
       Forall (inStock cat) pre /\ ~ inStock cat bad /\
       for_each checkStock items s = (inr (stockRejection cat bad), s')).
Proof.
  induction items as [| item rest IH]; intros s Hcat; simpl.
  - left. split; [constructor | exists s; split; reflexivity].
  - unfold bind at 1, checkStock, bind, GetProductDetails.
    rewrite (Hcat (req_ProductId item)).
    destruct (cat (req_ProductId item)) as [pd |] eqn:Hpd.
    + destruct (Z.ltb_spec (pd_Quantity pd) (req_Quantity item)) as [Hlt | Hge].
      * right. exists [], item, rest. eexists. simpl.
        split; [reflexivity |]. split; [constructor |]. split.
        -- intros (pd' & Hpd' & Hq). assert (pd' = pd) by congruence.
           subst. lia.
        -- unfold stockRejection, respond. rewrite Hpd. reflexivity.
      * simpl.
        set (s1 := mkState (orders s) (orderItems s) (world s)
                     (calls s ++ [CallGetProductDetails (req_ProductId item)])).
        assert (Hin : inStock cat item) by (exists pd; split; assumption).
        destruct (IH s1 Hcat) as [[Hall (s' & Hrun & Hw)]
                                 | (pre & bad & post & s' & -> & Hpre & Hbad & Hrun)].
        -- left. split; [constructor; assumption |].
           exists s'. split; assumption.
        -- right. exists (item :: pre), bad, post, s'.
           split; [reflexivity |]. split; [constructor; assumption |].
           split; assumption.
    + right. exists [], item, rest. eexists. simpl.
      split; [reflexivity |]. split; [constructor |]. split.
      * intros (pd' & Hpd' & _). congruence.
      * unfold stockRejection, respond. rewrite Hpd. reflexivity.
Qed.

(** C3, as the code has it. On a catalog that answers the reads of the
    request as [cat], a request with a line item whose product has less
    than the quantity asked for is rejected and both maps of the store are
    left as they were. A request that fails the structural validation is
    answered 400 with the reason of the validation; otherwise the answer
    is the 404 of the first line item, in the order of the request, that
    is not in stock: a product that is missing, or one that is short. *)
Theorem short_stock_rejected_store_unchanged
  oReq newId currentTime (s : St) cat item pd :
  readsAs cat (world s) ->
  item ∈ Items oReq -> cat (req_ProductId item) = Some pd ->
  pd_Quantity pd < req_Quantity item ->
  let result := PlaceOrderHandler ToLower oReq newId currentTime s in
  orders (snd result) = orders s /\ orderItems (snd result) = orderItems s /\
  match CreateOrderRequest_Validate ToLower oReq with
  | Some err => fst result = mkResponse StatusBadRequest (Text err)
  | None =>
      exists pre bad post,
        Items oReq = (pre ++ bad :: post)%list /\
        Forall (inStock cat) pre /\ ~ inStock cat bad /\
        fst result = stockRejection cat bad
  end.
Proof.
  intros Hcat Hin Hpd Hshort result. unfold result.
  destruct (CreateOrderRequest_Validate ToLower oReq) as [err |] eqn:Hv.
  { rewrite (PlaceOrderHandler_invalid _ _ _ _ _ Hv). repeat split. }
  destruct (checkStock_readsAs cat (Items oReq) s Hcat)
    as [[Hall _] | (pre & bad & post & s' & Hitems & Hpre & Hbad & Hrun)].
  { exfalso. rewrite Forall_forall in Hall.
    destruct (Hall item Hin) as (pd' & Hpd' & Hq).
    assert (pd' = pd) by congruence. subst. lia. }
  pose proof (preserves_for_each checkStock (Items oReq)
                preserves_checkStock s) as [Ho Hi].
  unfold PlaceOrderHandler. rewrite Hv, run_bind.
  rewrite Hrun in *. simpl in *. repeat split; auto.
  exists pre, bad, post. auto.
Qed.

(** ** Pricing *)




(** The sum of unit price times quantity over the line items, added from
    0 in the order of the request. *)
Definition undiscountedSum
  (lines : list (CreateOrderItemsRequest * GetProductDetailsResponse))
  : float :=
  fold_left
    (fun acc line =>
       (acc + pd_Price (snd line) * float64_of_int64 (req_Quantity (fst line)))
       %float)
    lines 0%float.








End Placement.

End Properties.

(** ** The handlers on concrete requests *)

Lemma store_wf_empty (w : Catalog) : store_wf (emptyStore w).
Proof. intros k o. unfold emptyStore. simpl. rewrite lookup_empty. discriminate. Qed.

(** Three premium products, of prices 10, 20 and 30, five of each. *)
Definition premiumCatalog : Catalog :=
  mkCatalog
    [("P1", product "premium" 10 5); ("P2", product "Premium" 20 5);
     ("P3", product "PREMIUM" 30 5)] [].

Definition premiumOrder : CreateOrderRequest :=
  mkOrderReq [mkItemReq "P1" 1; mkItemReq "P2" 1; mkItemReq "P3" 1].

(** The store after that order has been placed as "id1" at time "t0". *)
Definition placedStore : State Catalog :=
  snd (PlaceOrderHandler asciiToLower premiumOrder "id1" "t0"
         (emptyStore premiumCatalog)).

Lemma placedStore_wf : store_wf placedStore.
Proof. apply PlaceOrderHandler_wf, store_wf_empty. Qed.

Definition placedOrder : Order :=
  mkOrder "id1" 10 54%float OrderPlaced "" "t0" "t0".

Definition dispatchedProjection : CreateOrderResponse :=
  mkOrderResp "id1"
    [mkItemResp "P1" "name" "description" "premium" 10 1;
     mkItemResp "P2" "name" "description" "Premium" 20 1;
     mkItemResp "P3" "name" "description" "PREMIUM" 30 1]
    0 54%float OrderDispatched "t1" "t0" "t0".

(** *** The status machine *)

(** The rank rule on the placed order: the request to dispatch it is
    accepted and written. *)
Lemma status_update_follows_rank_rule_witness :
  orders placedStore !! "id1" = Some placedOrder /\
  orders
    (snd (UpdateOrderStatusHandler "id1" (mkStatusReq OrderDispatched) "t1"
            placedStore)) !! "id1"
  = Some (withStatus placedOrder OrderDispatched "t1") /\
  snd (UpdateOrderStatusHandler "id1" (mkStatusReq OrderCompleted) "t1"
         placedStore) = placedStore.
Proof.
  assert (Ho : orders placedStore !! "id1" = Some placedOrder)
    by (vm_compute; reflexivity).
  split; [exact Ho |]. split.
  - apply (status_update_follows_rank_rule "id1"
             (mkStatusReq OrderDispatched) "t1" placedStore placedOrder Ho);
      vm_compute; (reflexivity || (repeat constructor)).
  - apply (status_update_follows_rank_rule "id1"
             (mkStatusReq OrderCompleted) "t1" placedStore placedOrder Ho);
      vm_compute; (reflexivity || (repeat constructor)).
Defined.

(** Three requests on the placed order: it is dispatched at "t1", the
    request to dispatch it again is rejected, and it is completed. The
    assignment of [DispatchedAt] runs once. *)
Definition dispatchTwice : list Update :=
  [("id1", mkStatusReq OrderDispatched, "t1");
   ("id1", mkStatusReq OrderDispatched, "t2");
   ("id1", mkStatusReq OrderCompleted, "t3")].

Lemma dispatchedAt_written_at_most_once_witness :
  store_wf placedStore /\
  (dispatchStamps "id1" dispatchTwice placedStore <= 1)%nat /\
  DispatchedAt <$> orders (updates dispatchTwice placedStore) !! "id1"
  = Some "t1".
Proof.
  split; [exact placedStore_wf |]. split.
  - apply (dispatchedAt_written_at_most_once "id1" dispatchTwice placedStore
             placedStore_wf).
  - vm_compute. reflexivity.
Defined.

(** The answer to the accepted request carries discount 0 although the
    stored order keeps its discount of 10. *)
Lemma status_update_keeps_order_but_drops_discount_witness :
  store_wf placedStore /\
  orders placedStore !! "id1" = Some placedOrder /\
  Discount placedOrder = 10 /\
  fst (UpdateOrderStatusHandler "id1" (mkStatusReq OrderDispatched) "t1"
         placedStore)
  = mkResponse StatusOK (Json dispatchedProjection) /\
  resp_Discount dispatchedProjection = 0 /\
  exists o',
    orders
      (snd (UpdateOrderStatusHandler "id1" (mkStatusReq OrderDispatched) "t1"
              placedStore)) !! "id1" = Some o' /\
    Discount o' = 10.
Proof.
  assert (Ho : orders placedStore !! "id1" = Some placedOrder)
    by (vm_compute; reflexivity).
  assert (Hr : fst (UpdateOrderStatusHandler "id1"
                      (mkStatusReq OrderDispatched) "t1" placedStore)
               = mkResponse StatusOK (Json dispatchedProjection))
    by (vm_compute; reflexivity).
  split; [exact placedStore_wf |]. split; [exact Ho |].
  split; [reflexivity |]. split; [exact Hr |].
  destruct (status_update_keeps_order_but_drops_discount "id1"
              (mkStatusReq OrderDispatched) "t1" placedStore placedOrder
              dispatchedProjection placedStore_wf Ho Hr)
    as (o' & Ho' & _ & Hd & _ & _ & H0 & _).
  split; [exact H0 |]. exists o'. split; [exact Ho' | exact Hd].
Defined.

(** C4 on the code. The placed order was written at "t0"; the accepted
    request to dispatch it at "t1" is answered 200 and stamps
    [DispatchedAt] with "t1", but the stored [UpdatedAt] is still "t0", and
    so is the one in the answer. *)
Theorem updatedAt_not_stamped_by_accepted_update :
  let result :=
    UpdateOrderStatusHandler "id1" (mkStatusReq OrderDispatched) "t1"
      placedStore in
  UpdatedAt <$> orders placedStore !! "id1" = Some "t0" /\
  code (fst result) = StatusOK /\
  Status <$> orders (snd result) !! "id1" = Some OrderDispatched /\
  DispatchedAt <$> orders (snd result) !! "id1" = Some "t1" /\
  UpdatedAt <$> orders (snd result) !! "id1" = Some "t0" /\
  fst result = mkResponse StatusOK (Json dispatchedProjection) /\
  resp_UpdatedAt dispatchedProjection = "t0".
Proof. vm_compute. repeat split. Qed.

(** The same on every state: the order an accepted update writes has the
    [UpdatedAt] it had, and the clock in [DispatchedAt] when the new status
    is dispatched. *)
Lemma accepted_update_timestamps {World : Type}
  {conn : ProductServiceClient World} orderId req now (s : State World) o :
  acceptedUpdate orderId req s = Some o ->
  exists o',
    orders (snd (UpdateOrderStatusHandler orderId req now s)) !! ID o
    = Some o' /\
    UpdatedAt o' = UpdatedAt o /\
    (req_Status req = OrderDispatched -> DispatchedAt o' = now).
Proof.
  intros E.
  destruct (UpdateOrderStatusHandler_accepted orderId req now s o E)
    as (Ho & _ & _).
  eexists. split; [rewrite Ho; apply lookup_insert_eq |].
  split; [apply withStatus_UpdatedAt |].
  intros Hd. rewrite withStatus_DispatchedAt, Hd. reflexivity.
Qed.

(** *** Structural validation *)

(** "P1" and "p1" are the same product id once lower-cased. *)
Lemma duplicate_product_rejected_witness :
  asciiToLower "P1" = asciiToLower "p1" /\
  PlaceOrderHandler asciiToLower
    (mkOrderReq [mkItemReq "P1" 1; mkItemReq "p1" 2]) "id1" "t0"
    (emptyStore premiumCatalog)
  = (mkResponse StatusBadRequest (Text "product id is repeated"),
     emptyStore premiumCatalog).
Proof.
  split; [reflexivity |].
  apply (duplicate_product_rejected_before_catalog asciiToLower
           (mkOrderReq [mkItemReq "P1" 1; mkItemReq "p1" 2]) "id1" "t0"
           (emptyStore premiumCatalog) 0%nat 1%nat
           (mkItemReq "P1" 1) (mkItemReq "p1" 2)).
  - discriminate.
  - reflexivity.
  - reflexivity.
  - reflexivity.
Defined.

Definition single (productId : string) (quantity : Z) : CreateOrderRequest :=
  mkOrderReq [mkItemReq productId quantity].

Lemma single_no_defect productId quantity :
  productId <> "" ->
  Items (single productId quantity) <> [] /\
  NoDup (lowerIds asciiToLower (Items (single productId quantity))) /\
  Forall (fun item => req_ProductId item <> "")
    (Items (single productId quantity)).
Proof.
  intros H. split; [discriminate |]. split.
  - apply NoDup_singleton.
  - repeat constructor. exact H.
Qed.

(** The quantities 1 and 10 pass the validation; 0, 11 and -3 are answered
    400. *)
Lemma quantity_accepted_iff_in_range_witness :
  CreateOrderRequest_Validate asciiToLower (single "P1" 1) = None /\
  CreateOrderRequest_Validate asciiToLower (single "P1" 10) = None /\
  (forall q, q = 0 \/ q = 11 \/ q = -3 ->
   exists err,
     PlaceOrderHandler asciiToLower (single "P1" q) "id1" "t0"
       (emptyStore premiumCatalog)
     = (mkResponse StatusBadRequest (Text err), emptyStore premiumCatalog)).
Proof.
  assert (Hne : "P1" <> "") by discriminate.
  split; [| split].
  - destruct (single_no_defect "P1" 1 Hne) as (H1 & H2 & H3).
    apply (proj1 (quantity_accepted_iff_in_range asciiToLower (single "P1" 1))
             H1 H2 H3).
    constructor; [unfold quantityInRange; simpl; lia | constructor].
  - destruct (single_no_defect "P1" 10 Hne) as (H1 & H2 & H3).
    apply (proj1 (quantity_accepted_iff_in_range asciiToLower (single "P1" 10))
             H1 H2 H3).
    constructor; [unfold quantityInRange; simpl; lia | constructor].
  - intros q Hq.
    destruct (proj2 (quantity_accepted_iff_in_range asciiToLower
                       (single "P1" q)) (mkItemReq "P1" q))
      as (err & _ & Herr).
    + constructor.
    + unfold quantityInRange. simpl. lia.
    + exists err. apply Herr.
Defined.

(** An empty product id is answered 400. *)
Lemma empty_product_id_rejected_witness :
  exists err,
    PlaceOrderHandler asciiToLower (single "" 1) "id1" "t0"
      (emptyStore premiumCatalog)
    = (mkResponse StatusBadRequest (Text err), emptyStore premiumCatalog).
Proof.
  destruct (empty_product_id_rejected asciiToLower (single "" 1)
              (mkItemReq "" 1)) as (err & _ & Herr).
  - constructor.
  - reflexivity.
  - exists err. apply Herr.
Defined.

(** A string of white space only. *)
Fixpoint blank (s : string) : bool :=
  match s with
  | EmptyString => true
  | String c rest =>
      (Ascii.eqb c " " || Ascii.eqb c "009" || Ascii.eqb c "010"
       || Ascii.eqb c "013")%bool && blank rest
  end.

(** C8 fails on the code. The product id " " is blank, yet the validation
    accepts the request: the handler goes on to the product service, which
    is asked for the product " ", and the answer is the 404 of the stock
    check, not the 400 of the validation. *)
Lemma blank_product_id_passes_validation :
  blank " " = true /\
  CreateOrderRequest_Validate asciiToLower (single " " 1) = None /\
  calls
    (snd (PlaceOrderHandler asciiToLower (single " " 1) "id1" "t0"
            (emptyStore premiumCatalog)))
  = [CallGetProductDetails " "] /\
  fst (PlaceOrderHandler asciiToLower (single " " 1) "id1" "t0"
         (emptyStore premiumCatalog))
  = mkResponse StatusNotFound (Text "product with id:   does not exist").
Proof. vm_compute. repeat split. Qed.

(** *** Placement *)

(** Two products in stock; the product service refuses to update "P2". *)
Definition flakyCatalog : Catalog :=
  mkCatalog
    [("P1", product "standard" 10 5); ("P2", product "standard" 20 5)]
    ["P2"].

Definition twoItems : CreateOrderRequest :=
  mkOrderReq [mkItemReq "P1" 1; mkItemReq "P2" 1].

Definition twoItemsOrder : Order :=
  mkOrder "id1" 0 30%float OrderPlaced "" "t0" "t0".

Definition twoItemsLines : list OrderItem :=
  [mkOrderItem "P1" 1 "id1"; mkOrderItem "P2" 1 "id1"].

(** The state right after the order has been written. *)
Definition twoItemsWritten : State Catalog :=
  match persisted asciiToLower twoItems "id1" "t0" (emptyStore flakyCatalog)
  with
  | Some (_, _, s3) => s3
  | None => emptyStore flakyCatalog
  end.

(** The update of "P2" fails after the inventory of "P1" has been adjusted:
    the answer is 500 for "P2" and the order stays in the store, placed. *)
Lemma adjustment_failure_leaves_order_placed_witness :
  exists s4,
    PlaceOrderHandler asciiToLower twoItems "id1" "t0"
      (emptyStore flakyCatalog)
    = (mkResponse StatusInternalServerError
         (Text "inventory for product with id: P2 could not be updated"), s4)
    /\ orders s4 !! "id1" = Some twoItemsOrder
    /\ Status twoItemsOrder = OrderPlaced
    /\ orderItems s4 !! "id1" = Some twoItemsLines.
Proof.
  apply (adjustment_failure_leaves_order_placed asciiToLower twoItems
           "id1" "t0" (emptyStore flakyCatalog) twoItemsOrder twoItemsLines
           twoItemsWritten [mkItemReq "P1" 1] (mkItemReq "P2" 1) []
           (snd (for_each adjustItem [mkItemReq "P1" 1] twoItemsWritten))).
  - vm_compute. reflexivity.
  - reflexivity.
  - vm_compute. reflexivity.
  - right. exists (product "standard" 20 5).
    exists (mkCatalog
              [("P1", product "standard" 10 4);
               ("P2", product "standard" 20 5)] ["P2"]).
    split; [vm_compute; reflexivity |].
    split; [vm_compute; reflexivity | reflexivity].
Defined.

(** "P1" is in the catalog with less than the quantity asked for. *)
Definition shortCatalog : Catalog :=
  mkCatalog [("P1", product "standard" 10 1)] [].

Lemma short_stock_rejected_witness :
  let result :=
    PlaceOrderHandler asciiToLower (single "P1" 2) "id1" "t0"
      (emptyStore shortCatalog) in
  orders (snd result) = ∅ /\ orderItems (snd result) = ∅ /\
  fst result
  = mkResponse StatusNotFound
      (Text "product with id: P1 does not have enough inventory").
Proof.
  destruct (short_stock_rejected_store_unchanged asciiToLower (single "P1" 2)
              "id1" "t0" (emptyStore shortCatalog)
              (fun productId => findProduct productId (products shortCatalog))
              (mkItemReq "P1" 2) (product "standard" 10 1))
    as (Ho & Hi & Hr).
  - intros productId. reflexivity.
  - constructor.
  - reflexivity.
  - simpl. lia.
  - cbv zeta. split; [exact Ho |]. split; [exact Hi |].
    vm_compute. reflexivity.
Defined.

(** [needle] occurs in [s]. *)
Fixpoint occursIn (needle s : string) : bool :=
  String.prefix needle s
  || match s with
     | EmptyString => false
     | String _ rest => occursIn needle rest
     end.

(** "p2" is in the catalog with no stock; "p1" is not in the catalog. *)
Definition missingAndShort : Catalog :=
  mkCatalog [("p2", product "standard" 10 0)] [].

(** C3 fails on the code. The request asks for "p1" and then for "p2". The
    product "p2" has less than the quantity asked for, but the answer names
    "p1", the line item before it, which the catalog does not have; the id
    "p2" does not occur in the answer. *)
Lemma rejection_names_another_product :
  let oReq := mkOrderReq [mkItemReq "p1" 1; mkItemReq "p2" 1] in
  let result :=
    PlaceOrderHandler asciiToLower oReq "id1" "t0"
      (emptyStore missingAndShort) in
  CreateOrderRequest_Validate asciiToLower oReq = None /\
  findProduct "p2" (products missingAndShort)
  = Some (product "standard" 10 0) /\
  pd_Quantity (product "standard" 10 0) < 1 /\
  fst result
  = mkResponse StatusNotFound (Text "product with id: p1 does not exist") /\
  occursIn "p2" "product with id: p1 does not exist" = false.
Proof. vm_compute. repeat split. Qed.




#[local] Set Warnings "-inexact-float".

(** Three premium products of price 0.13 each. *)
Definition centsCatalog : Catalog :=
  mkCatalog
    [("P1", product "premium" 0.13 5); ("P2", product "premium" 0.13 5);
     ("P3", product "premium" 0.13 5)] [].

Definition centsTotal : float :=
  undiscountedSum
    (zip (Items premiumOrder)
       [product "premium" 0.13 5; product "premium" 0.13 5;
        product "premium" 0.13 5]).

Definition centsAmount : float :=
  match
    orders
      (snd (PlaceOrderHandler asciiToLower premiumOrder "id1" "t0"
              (emptyStore centsCatalog))) !! "id1"
  with
  | Some o => Amount o
  | None => 0%float
  end.

(** The tolerance cannot be dropped. With three premium products of price
    0.13, one of each, the sum is the binary64 0.39 and the stored amount
    [0.39 - 0.39 * 10 / 100] is the binary64 just below 0.351. It is not
    the binary64 product of 0.9 and the sum, nor the sum times 90 over 100,
    and as a rational number it is close to nine tenths of the sum, as
    the discount law says, but not equal to it. *)
Lemma discounted_amount_is_rounded :
  (exists o,
     orders
       (snd (PlaceOrderHandler asciiToLower premiumOrder "id1" "t0"
               (emptyStore centsCatalog))) !! "id1" = Some o /\
     Discount o = 10 /\ Amount o = centsAmount) /\
  centsAmount = (centsTotal - centsTotal * 10 / 100)%float /\
  centsAmount <> (0.9 * centsTotal)%float /\
  centsAmount <> (centsTotal * 90 / 100)%float /\
  forall a t,
    exactValue centsAmount = Some a -> exactValue centsTotal = Some t ->
    ~ (a == (9 # 10) * t)%Q.
Proof.
  split; [eexists; vm_compute; repeat split |].
  split; [vm_compute; reflexivity |].
  split; [| split].
  - intros H. apply (f_equal Prim2SF) in H. vm_compute in H. discriminate.
  - intros H. apply (f_equal Prim2SF) in H. vm_compute in H. discriminate.
  - intros a t Ha Ht. vm_compute in Ha, Ht.
    injection Ha as <-. injection Ht as <-.
    unfold Qeq. vm_compute. discriminate.
Qed.

(** Three premium products of price 1e307 each: the sum times 10 is beyond
    the largest binary64. *)
Definition hugeCatalog : Catalog :=
  mkCatalog
    [("P1", product "premium" 1e307 5); ("P2", product "premium" 1e307 5);
     ("P3", product "premium" 1e307 5)] [].

(** The bound on the sum cannot be dropped either: it keeps the float64
    operations away from overflow. On such prices the sum times 10 is
    infinite and the stored amount is minus infinity; the answer is the 500
    of the failed encoding, with the order in the store. *)
Lemma discounted_amount_overflows :
  let result :=
    PlaceOrderHandler asciiToLower premiumOrder "id1" "t0"
      (emptyStore hugeCatalog) in
  Amount <$> orders (snd result) !! "id1" = Some neg_infinity /\
  fst result = mkResponse StatusInternalServerError NoBody.
Proof. vm_compute. split; reflexivity. Qed.

#[local] Set Warnings "inexact-float".

(** * Further properties of the handlers *)

(** ** The status handler: validation, lookup and the life of an order *)

Section StatusHandler.

Context {World : Type} {conn : ProductServiceClient World}.

#[local] Abbreviation St := (State World).

(** The validation of a status request accepts the five literals, in
    lower case, and nothing else. *)
Lemma Validate_status_iff (req : UpdateOrderStatusRequest) :
  UpdateOrderStatusRequest_Validate req = None <-> req_Status req ∈ statuses.
Proof.
  unfold UpdateOrderStatusRequest_Validate. fold statuses.
  destruct (existsb (String.eqb (req_Status req)) statuses) eqn:E.
  - apply existsb_eqb_elem in E. tauto.
  - split; [discriminate |]. intros H. apply existsb_eqb_elem in H. congruence.
Qed.

Lemma invalid_status_rejected_before_lookup_holds orderId req now (s : St) :
  req_Status req ∉ statuses ->
  UpdateOrderStatusHandler orderId req now s
  = (mkResponse StatusBadRequest (Text "invalid order status"), s).
Proof.
  intros H. unfold UpdateOrderStatusHandler.
  destruct (UpdateOrderStatusRequest_Validate req) as [err |] eqn:E.
  - unfold UpdateOrderStatusRequest_Validate in E.
    destruct (existsb _ _); [discriminate |]. injection E as <-. reflexivity.
  - apply Validate_status_iff in E. contradiction.
Qed.

(** X1. A request whose status is none of the five literals is answered 400
    "invalid order status" before the order is looked up: the answer is the
    same whether the order exists or not, and the state is the one the
    handler started in. *)
Theorem invalid_status_rejected_before_lookup orderId req now (s : St) :
  req_Status req ∉ statuses ->
  UpdateOrderStatusHandler orderId req now s
  = (mkResponse StatusBadRequest (Text "invalid order status"), s).
Proof. apply invalid_status_rejected_before_lookup_holds. Qed.

(** X2. A valid request for an order id that is not a key of [orders] is
    answered 404 with the id in the message; nothing is written and no
    remote call is issued. *)
Theorem update_unknown_order_not_found orderId req now (s : St) :
  req_Status req ∈ statuses -> orders s !! orderId = None ->
  UpdateOrderStatusHandler orderId req now s
  = (mkResponse StatusNotFound
       (Text ("order with id: " +:+ orderId +:+ " does not exist")), s).
Proof.
  intros Hv Ho. unfold UpdateOrderStatusHandler, run, bind, lookupOrder.
  rewrite (proj2 (Validate_status_iff req) Hv), Ho. reflexivity.
Qed.

Lemma get_unknown_order_not_found_holds orderId (s : St) :
  orders s !! orderId = None ->
  GetOrderDetailsHandler orderId s
  = (mkResponse StatusNotFound
       (Text ("order with id: " +:+ orderId +:+ " does not exist")), s).
Proof.
  intros Ho. unfold GetOrderDetailsHandler, run, bind, lookupOrder.
  rewrite Ho. reflexivity.
Qed.

(** X3. The same for the handler that reads one order. *)
Theorem get_unknown_order_not_found orderId (s : St) :
  orders s !! orderId = None ->
  GetOrderDetailsHandler orderId s
  = (mkResponse StatusNotFound
       (Text ("order with id: " +:+ orderId +:+ " does not exist")), s).
Proof. apply get_unknown_order_not_found_holds. Qed.

Lemma rank_bounds (status : OrderStatus) :
  status ∈ statuses -> 1 <= rank status <= 5.
Proof.
  intros H. apply elem_of_statuses in H.
  destruct H as [-> | [-> | [-> | [-> | ->]]]]; vm_compute;
    split; discriminate.
Qed.

(** X4. Returned and cancelled are terminal: whatever status a request asks
    for, an order in one of these two states is left as it is and the
    answer is 400. *)
Theorem terminal_states_reject_every_update orderId req now (s : St) o :
  orders s !! orderId = Some o ->
  Status o = OrderReturned \/ Status o = OrderCancelled ->
  exists reason,
    UpdateOrderStatusHandler orderId req now s
    = (mkResponse StatusBadRequest (Text reason), s).
Proof.
  intros Ho Hterm.
  destruct (decide (req_Status req ∈ statuses)) as [Hv | Hv].
  2: { eexists. apply invalid_status_rejected_before_lookup_holds, Hv. }
  unfold UpdateOrderStatusHandler, run, bind, lookupOrder.
  rewrite (proj2 (Validate_status_iff req) Hv), Ho.
  pose proof (rank_bounds _ Hv) as Hb.
  assert (Hc : rank (Status o) = 4 \/ rank (Status o) = 5).
  { destruct Hterm as [-> | ->]; [left | right]; vm_compute; reflexivity. }
  unfold transitionError.
  destruct (Z.leb_spec (rank (req_Status req)) (rank (Status o)));
    [eexists; reflexivity |].
  assert (Hn : rank (req_Status req) = 5) by lia.
  assert (H4 : rank (Status o) = 4) by lia.
  rewrite Hn, H4. simpl. eexists. reflexivity.
Qed.

Lemma UpdateOrderStatusHandler_frame_holds orderId req now (s : St) :
  store_wf s ->
  orderItems (snd (UpdateOrderStatusHandler orderId req now s))
  = orderItems s /\
  (forall k, k <> orderId ->
     orders (snd (UpdateOrderStatusHandler orderId req now s)) !! k
     = orders s !! k) /\
  dom (orders (snd (UpdateOrderStatusHandler orderId req now s)))
  = dom (orders s).
Proof.
  intros Hwf. destruct (acceptedUpdate orderId req s) as [o |] eqn:E.
  - destruct (UpdateOrderStatusHandler_accepted orderId req now s o E)
      as (Ho & Hi & _).
    apply acceptedUpdate_Some in E as (_ & Hl & _).
    pose proof (Hwf _ _ Hl) as HID.
    rewrite Ho, Hi, HID. split; [reflexivity |]. split.
    + intros k Hk. apply lookup_insert_ne. congruence.
    + rewrite dom_insert_L. apply elem_of_dom_2 in Hl.
      apply subseteq_union_1_L, singleton_subseteq_l, Hl.
  - destruct (UpdateOrderStatusHandler_rejected orderId req now s E)
      as (c & reason & -> & _).
    repeat split.
Qed.

(** X7. The status handler writes at most the order it is asked for: the
    line items of every order and all other orders are as they were, and
    no key is added to or removed from [orders]. *)
Theorem UpdateOrderStatusHandler_frame orderId req now (s : St) :
  store_wf s ->
  orderItems (snd (UpdateOrderStatusHandler orderId req now s))
  = orderItems s /\
  (forall k, k <> orderId ->
     orders (snd (UpdateOrderStatusHandler orderId req now s)) !! k
     = orders s !! k) /\
  dom (orders (snd (UpdateOrderStatusHandler orderId req now s)))
  = dom (orders s).
Proof. apply UpdateOrderStatusHandler_frame_holds. Qed.

(** The request [u] is accepted and writes the order [target]. *)
Definition acceptedFor (target : string) (u : Update) (s : St) : bool :=
  let '(orderId, req, _) := u in
  match acceptedUpdate orderId req s with
  | Some o => String.eqb (ID o) target
  | None => false
  end.

(** How many requests of a sequence change the order [target]. *)
Fixpoint acceptedCount (target : string) (l : list Update) (s : St) : nat :=
  match l with
  | [] => 0
  | u :: rest =>
      ((if acceptedFor target u s then 1 else 0)
       + acceptedCount target rest (step u s))%nat
  end.

(** The number of updates an order of a given rank can still take: three
    from placed, two from dispatched, one from completed. *)
Definition lifeLeft (c : Z) : nat :=
  if c =? 1 then 3 else if c =? 2 then 2 else if c =? 3 then 1 else 0.

Lemma transition_uses_life (c n : Z) :
  1 <= c <= 5 -> 1 <= n <= 5 -> transitionError c n = None ->
  (lifeLeft n + 1 <= lifeLeft c)%nat.
Proof.
  intros Hc Hn.
  assert (Hc' : c = 1 \/ c = 2 \/ c = 3 \/ c = 4 \/ c = 5) by lia.
  assert (Hn' : n = 1 \/ n = 2 \/ n = 3 \/ n = 4 \/ n = 5) by lia.
  destruct Hc' as [-> | [-> | [-> | [-> | ->]]]];
    destruct Hn' as [-> | [-> | [-> | [-> | ->]]]];
    vm_compute; intros H; (discriminate H || lia).
Qed.

(** One request on an order with a valid status: the order stays, with a
    valid status and the fields of the placement; when the request is
    accepted for it, one update of its life is used. *)
Lemma step_order target u (s : St) o :
  store_wf s -> orders s !! target = Some o ->
  exists o',
    orders (step u s) !! target = Some o' /\
    ID o' = ID o /\ Discount o' = Discount o /\ Amount o' = Amount o /\
    CreatedAt o' = CreatedAt o /\ UpdatedAt o' = UpdatedAt o /\
    (Status o ∈ statuses ->
     Status o' ∈ statuses /\
     ((if acceptedFor target u s then 1 else 0)
      + lifeLeft (rank (Status o')) <= lifeLeft (rank (Status o)))%nat).
Proof.
  intros Hwf Ho. pose proof (step_target target u s Hwf) as H.
  unfold acceptedFor. destruct u as [[orderId req] now].
  destruct (acceptedUpdate orderId req s) as [o0 |] eqn:E.
  - destruct (String.eqb (ID o0) target).
    + destruct H as (H0 & H1 & _). assert (o0 = o) by congruence. subst o0.
      exists (withStatus o (req_Status req) now).
      destruct (withStatus_frame o (req_Status req) now) as (Hd & Ha & Hc).
      rewrite withStatus_ID, withStatus_UpdatedAt, withStatus_Status.
      split; [exact H1 |]. do 5 (split; [assumption || reflexivity |]).
      intros Hst. apply acceptedUpdate_Some in E as (Hv & _ & Ht).
      apply Validate_status_iff in Hv. split; [exact Hv |].
      pose proof (transition_uses_life _ _ (rank_bounds _ Hst)
                    (rank_bounds _ Hv) Ht). lia.
    + exists o. rewrite H. split; [exact Ho |].
      do 5 (split; [reflexivity |]).
      intros Hst. split; [exact Hst | simpl; lia].
  - exists o. rewrite H. split; [exact Ho |].
    do 5 (split; [reflexivity |]).
    intros Hst. split; [exact Hst | simpl; lia].
Qed.

(** X5. An order takes at most three status updates in its life: along any
    sequence of requests, at most three are accepted for an order that is
    stored with one of the five statuses (two when it is dispatched, one
    when it is completed, none when it is returned or cancelled). *)
Theorem at_most_three_updates target l (s : St) o :
  store_wf s -> orders s !! target = Some o -> Status o ∈ statuses ->
  (acceptedCount target l s <= lifeLeft (rank (Status o)))%nat /\
  (acceptedCount target l s <= 3)%nat.
Proof.
  intros Hwf Ho Hst.
  assert (H : (acceptedCount target l s <= lifeLeft (rank (Status o)))%nat).
  { revert s o Hwf Ho Hst.
    induction l as [| u rest IH]; intros s o Hwf Ho Hst; simpl; [lia |].
    destruct (step_order target u s o Hwf Ho)
      as (o' & Ho' & _ & _ & _ & _ & _ & Hlife).
    destruct (Hlife Hst) as [Hst' Hle].
    pose proof (IH (step u s) o' (step_wf u s Hwf) Ho' Hst'). lia. }
  split; [exact H |].
  assert ((lifeLeft (rank (Status o)) <= 3)%nat); [| lia].
  unfold lifeLeft. repeat destruct (_ =? _); lia.
Qed.

(** X6. Whatever sequence of status requests is served, an order keeps the
    [ID], [Discount], [Amount], [CreatedAt] and [UpdatedAt] it was stored
    with, and the line items of all orders are as they were. *)
Theorem updates_keep_placement_fields target l (s : St) o :
  store_wf s -> orders s !! target = Some o ->
  exists o',
    orders (updates l s) !! target = Some o' /\
    ID o' = ID o /\ Discount o' = Discount o /\ Amount o' = Amount o /\
    CreatedAt o' = CreatedAt o /\ UpdatedAt o' = UpdatedAt o /\
    orderItems (updates l s) = orderItems s.
Proof.
  revert s o. induction l as [| u rest IH]; intros s o Hwf Ho; simpl.
  - exists o. repeat split; auto.
  - destruct (step_order target u s o Hwf Ho)
      as (o1 & Ho1 & H1 & H2 & H3 & H4 & H5 & _).
    destruct (IH (step u s) o1 (step_wf u s Hwf) Ho1)
      as (o' & Ho' & G1 & G2 & G3 & G4 & G5 & Gi).
    exists o'. split; [exact Ho' |].
    destruct u as [[orderId req] now].
    destruct (UpdateOrderStatusHandler_frame_holds orderId req now s Hwf)
      as (Hi & _ & _).
    unfold step in *. repeat split; congruence.
Qed.

End StatusHandler.

(** ** The placement and the reading handlers: errors, answers and remote
    calls *)

Section Handlers.

Context {World : Type} {conn : ProductServiceClient World}.

#[local] Abbreviation St := (State World).

Notation "x <- m ;; k" := (bind m (fun x => k))
  (at level 100, m at next level, right associativity).
Notation "m ;;; k" := (bind m (fun _ => k))
  (at level 100, right associativity).

Definition quantityMsg : string :=
  "product quantiy must be greater than 0 and less than equal to 10".

(** A line item the second loop of the validation lets through. *)
Definition itemOk (item : CreateOrderItemsRequest) : Prop :=
  req_ProductId item <> "" /\ quantityInRange item.

Lemma checkItems_Some (items : list CreateOrderItemsRequest) err :
  checkItems items = Some err <->
  exists pre bad post,
    items = (pre ++ bad :: post)%list /\ Forall itemOk pre /\
    ((req_ProductId bad = "" /\ err = "invalid product id") \/
     (req_ProductId bad <> "" /\ ~ quantityInRange bad /\ err = quantityMsg)).
Proof.
  unfold itemOk, quantityInRange, quantityMsg.
  induction items as [| item rest IH]; simpl.
  - split; [discriminate |]. intros (pre & bad & post & H & _).
    destruct pre; discriminate.
  - destruct (String.eqb_spec (req_ProductId item) "") as [He | Hne].
    + split.
      * intros [= <-]. exists [], item, rest. simpl. auto.
      * intros (pre & bad & post & H & Hpre & Hbad).
        destruct pre as [| p pre]; simpl in H; injection H as -> ->.
        -- destruct Hbad as [[_ ->] | [Hc _]]; [reflexivity | contradiction].
        -- apply Forall_cons in Hpre as [[Hc _] _]. contradiction.
    + destruct ((0 <? req_Quantity item) && (req_Quantity item <=? 10))
        eqn:Hq; simpl.
      * apply andb_true_iff in Hq as [H0 H10].
        apply Z.ltb_lt in H0. apply Z.leb_le in H10.
        rewrite IH. split.
        -- intros (pre & bad & post & -> & Hpre & Hbad).
           exists (item :: pre), bad, post. split; [reflexivity |].
           split; [| exact Hbad]. constructor; [| exact Hpre].
           split; [exact Hne | lia].
        -- intros (pre & bad & post & H & Hpre & Hbad).
           destruct pre as [| p pre]; simpl in H; injection H as -> ->.
           ++ destruct Hbad as [[Hc _] | [_ [Hc _]]];
                [contradiction | exfalso; apply Hc; lia].
           ++ apply Forall_cons in Hpre as [_ Hpre].
              exists pre, bad, post. auto.
      * assert (Hbadq : ~ 1 <= req_Quantity item <= 10).
        { apply andb_false_iff in Hq as [H0 | H10];
            [apply Z.ltb_ge in H0 | apply Z.leb_gt in H10]; lia. }
        split.
        -- intros [= <-]. exists [], item, rest. simpl.
           split; [reflexivity |]. split; [constructor |]. right. auto.
        -- intros (pre & bad & post & H & Hpre & Hbad).
           destruct pre as [| p pre]; simpl in H; injection H as -> ->.
           ++ destruct Hbad as [[Hc _] | [_ [_ ->]]];
                [contradiction | reflexivity].
           ++ apply Forall_cons in Hpre as [[_ Hc] _]. contradiction.
Qed.

(** X8. The error of the validation, in the order the code looks for
    defects: an empty list first; then a repeated product id, wherever it
    is and whatever else is wrong with the items; then the first line item,
    in the order of the request, with an empty id or a quantity outside 1 to
    10, the empty id being reported when that item has both defects. *)
Theorem Validate_error_order (ToLower : string -> string)
  (oReq : CreateOrderRequest) err :
  CreateOrderRequest_Validate ToLower oReq = Some err <->
  (Items oReq = [] /\ err = "items not provided") \/
  (Items oReq <> [] /\ ~ NoDup (lowerIds ToLower (Items oReq)) /\
   err = "product id is repeated") \/
  (NoDup (lowerIds ToLower (Items oReq)) /\
   exists pre bad post,
     Items oReq = (pre ++ bad :: post)%list /\ Forall itemOk pre /\
     ((req_ProductId bad = "" /\ err = "invalid product id") \/
      (req_ProductId bad <> "" /\ ~ quantityInRange bad /\
       err = quantityMsg))).
Proof.
  unfold CreateOrderRequest_Validate.
  destruct (Items oReq) as [| i l] eqn:E.
  - simpl. split.
    + intros [= <-]. left. auto.
    + intros [[_ ->] | [[Hc _] | [_ (pre & bad & post & H & _)]]];
        [reflexivity | contradiction | destruct pre; discriminate].
  - change (length (i :: l) =? 0)%nat with false. cbv iota.
    destruct (repeated ToLower [] (i :: l)) eqn:Hrep.
    + assert (Hnd : ~ NoDup (lowerIds ToLower (i :: l))).
      { intros Hnd.
        assert (repeated ToLower [] (i :: l) = false); [| congruence].
        apply repeated_false. split; [exact Hnd |].
        intros x _ Hx. inversion Hx. }
      split.
      * intros [= <-]. right. left. repeat split; [discriminate | exact Hnd].
      * intros [[Hc _] | [[_ [_ ->]] | [Hc _]]];
          [discriminate | reflexivity | contradiction].
    + apply repeated_false in Hrep as [Hnd _].
      rewrite checkItems_Some. split.
      * intros H. right. right. split; [exact Hnd | exact H].
      * intros [[Hc _] | [[_ [Hc _]] | [_ H]]];
          [discriminate | contradiction | exact H].
Qed.

(** *** The remote calls of a placement *)

(** The product ids of the calls to [UpdateProductQuantity] in a log. *)
Fixpoint updatedIds (l : list Call) : list string :=
  match l with
  | [] => []
  | CallGetProductDetails _ :: rest => updatedIds rest
  | CallUpdateProductQuantity productId _ :: rest =>
      productId :: updatedIds rest
  end.

Lemma updatedIds_app (l1 l2 : list Call) :
  updatedIds (l1 ++ l2) = (updatedIds l1 ++ updatedIds l2)%list.
Proof.
  induction l1 as [| c l1 IH]; simpl; [reflexivity |].
  destruct c; simpl; rewrite IH; reflexivity.
Qed.

(** A computation that extends the log of calls, with no update of a
    quantity. *)
Definition readsOnly {A} (m : M A) : Prop :=
  forall s : St, exists extra,
    calls (snd (m s)) = (calls s ++ extra)%list /\ updatedIds extra = [].

Lemma readsOnly_ret {A} (a : A) : readsOnly (ret a).
Proof. intros s. exists []. simpl. rewrite app_nil_r. auto. Qed.

Lemma readsOnly_respond {A} c b : readsOnly (respond (A := A) c b).
Proof. intros s. exists []. simpl. rewrite app_nil_r. auto. Qed.

Lemma readsOnly_bind {A B} (m : M A) (k : A -> M B) :
  readsOnly m -> (forall a, readsOnly (k a)) -> readsOnly (bind m k).
Proof.
  intros Hm Hk s. unfold bind. destruct (Hm s) as (e1 & H1 & U1).
  destruct (m s) as [[a | r] s1]; simpl in *.
  - destruct (Hk a s1) as (e2 & H2 & U2). exists (e1 ++ e2)%list.
    rewrite H2, H1, <- app_assoc, updatedIds_app, U1, U2. auto.
  - exists e1. auto.
Qed.

Lemma readsOnly_GetProductDetails productId :
  readsOnly (GetProductDetails productId).
Proof.
  intros s. unfold GetProductDetails.
  destruct (rpc_GetProductDetails productId (world s)).
  exists [CallGetProductDetails productId]. auto.
Qed.

Lemma readsOnly_for_each {A} (f : A -> M unit) l :
  (forall a, readsOnly (f a)) -> readsOnly (for_each f l).
Proof.
  intros Hf. induction l as [| a l IH]; simpl.
  - apply readsOnly_ret.
  - apply readsOnly_bind; [apply Hf | intros _; exact IH].
Qed.

Lemma readsOnly_for_fold {A B} (f : B -> A -> M B) l :
  (forall b a, readsOnly (f b a)) -> forall acc, readsOnly (for_fold f l acc).
Proof.
  intros Hf. induction l as [| a l IH]; intros acc; simpl.
  - apply readsOnly_ret.
  - apply readsOnly_bind; [apply Hf | intros b; apply IH].
Qed.

Lemma readsOnly_checkStock item : readsOnly (checkStock item).
Proof.
  unfold checkStock. apply readsOnly_bind;
    [apply readsOnly_GetProductDetails |].
  intros [pd |]; [| apply readsOnly_respond].
  destruct (_ <? _); [apply readsOnly_respond | apply readsOnly_ret].
Qed.

Lemma readsOnly_priceItem (ToLower : string -> string) orderId acc item :
  readsOnly (priceItem ToLower orderId acc item).
Proof.
  unfold priceItem. destruct acc as [[a n] l].
  apply readsOnly_bind; [apply readsOnly_GetProductDetails |].
  intros [pd |]; [apply readsOnly_ret | apply readsOnly_respond].
Qed.

Lemma readsOnly_detailsLoop items :
  forall acc, readsOnly (detailsLoop items acc).
Proof.
  induction items as [| item rest IH]; intros acc; simpl.
  - apply readsOnly_ret.
  - apply readsOnly_bind; [apply readsOnly_GetProductDetails |].
    intros [pd |]; [apply IH | apply readsOnly_ret].
Qed.

Lemma readsOnly_GetOrderItemsDetailsList orderId :
  readsOnly (GetOrderItemsDetailsList orderId).
Proof.
  intros s. unfold GetOrderItemsDetailsList. apply readsOnly_detailsLoop.
Qed.

Lemma readsOnly_writeOrder r : readsOnly (writeOrder r).
Proof.
  unfold writeOrder. destruct (marshals r); apply readsOnly_respond.
Qed.

Lemma adjustItem_calls item (s : St) :
  exists extra,
    calls (snd (adjustItem item s)) = (calls s ++ extra)%list /\
    match fst (adjustItem item s) with
    | inl _ => updatedIds extra = [req_ProductId item]
    | inr r =>
        (updatedIds extra = [] \/ updatedIds extra = [req_ProductId item]) /\
        (code r = StatusNotFound \/ code r = StatusInternalServerError)
    end.
Proof.
  unfold adjustItem, bind, GetProductDetails, UpdateProductQuantity.
  destruct (rpc_GetProductDetails _ _) as [[pd |] w]; simpl.
  - destruct (rpc_UpdateProductQuantity _ _ _) as [[|] w']; simpl;
      eexists [_; _]; rewrite <- app_assoc; simpl; auto.
  - eexists [_]. simpl. auto.
Qed.

(** The third loop asks for one update per line item it gets to, in the
    order of the request: for all of them when it ends, for the items up to
    the one it stops at otherwise. It stops with 404 or 500. *)
Lemma adjust_calls items :
  forall s : St, exists extra,
    calls (snd (for_each adjustItem items s)) = (calls s ++ extra)%list /\
    match fst (for_each adjustItem items s) with
    | inl _ => updatedIds extra = map req_ProductId items
    | inr r =>
        (exists n, updatedIds extra = take n (map req_ProductId items)) /\
        (code r = StatusNotFound \/ code r = StatusInternalServerError)
    end.
Proof.
  induction items as [| item rest IH]; intros s; simpl.
  - exists []. rewrite app_nil_r. auto.
  - unfold bind. destruct (adjustItem_calls item s) as (e1 & H1 & U1).
    destruct (adjustItem item s) as [[[] | r] s1]; simpl in *.
    + destruct (IH s1) as (e2 & H2 & U2).
      exists (e1 ++ e2)%list.
      rewrite H2, H1, <- app_assoc, updatedIds_app, U1.
      split; [reflexivity |].
      destruct (for_each adjustItem rest s1) as [[[] | r] s2]; simpl in *.
      * rewrite U2. reflexivity.
      * destruct U2 as [[n Hn] Hc]. split; [| exact Hc].
        exists (S n). rewrite Hn. reflexivity.
    + exists e1. split; [exact H1 |]. destruct U1 as [[U1 | U1] Hc];
        (split; [| exact Hc]); [exists 0%nat | exists 1%nat];
        rewrite U1; simpl; rewrite ?take_0; reflexivity.
Qed.

(** *** The projection of the line items *)

Definition lineOf (item : OrderItem) : string * Z :=
  (ProductId item, ProductQuantity item).

Definition lineOfResponse (r : CreateOrderItemsResponse) : string * Z :=
  (item_ID r, item_Quantity r).

Lemma detailsLoop_result items :
  forall acc (s : St) l e s',
    detailsLoop items acc s = (inl (l, e), s') ->
    exists l',
      l = (acc ++ l')%list /\
      match e with
      | None => map lineOfResponse l' = map lineOf items
      | Some err =>
          exists pre bad post,
            items = (pre ++ bad :: post)%list /\
            map lineOfResponse l' = map lineOf pre /\
            err = "product with id: " +:+ ProductId bad
                  +:+ ", does not exist"
      end.
Proof.
  induction items as [| item rest IH]; intros acc s l e s'; simpl.
  - intros [= <- <- _]. exists []. rewrite app_nil_r. auto.
  - unfold bind, GetProductDetails.
    destruct (rpc_GetProductDetails _ _) as [[pd |] w].
    + intros H. apply IH in H as (l' & -> & He).
      eexists (_ :: l'). rewrite <- app_assoc. split; [reflexivity |].
      destruct e as [err |].
      * destruct He as (pre & bad & post & -> & Hm & ->).
        exists (item :: pre), bad, post. simpl. rewrite Hm. auto.
      * simpl. rewrite He. reflexivity.
    + intros [= <- <- _]. exists []. rewrite app_nil_r.
      split; [reflexivity |]. exists [], item, rest. auto.
Qed.

Lemma GetOrderItemsDetailsList_result_holds orderId (s : St) :
  exists l e s',
    GetOrderItemsDetailsList orderId s = (inl (l, e), s') /\
    orders s' = orders s /\ orderItems s' = orderItems s /\
    (exists extra,
       calls s' = (calls s ++ extra)%list /\ updatedIds extra = []) /\
    match e with
    | None =>
        map lineOfResponse l
        = map lineOf (default [] (orderItems s !! orderId))
    | Some err =>
        exists pre bad post,
          default [] (orderItems s !! orderId) = (pre ++ bad :: post)%list /\
          map lineOfResponse l = map lineOf pre /\
          err = "product with id: " +:+ ProductId bad +:+ ", does not exist"
    end.
Proof.
  destruct (GetOrderItemsDetailsList_inl orderId s)
    as (l & e & s' & Hrun & [Ho Hi]).
  pose proof (readsOnly_GetOrderItemsDetailsList orderId s) as Hlog.
  rewrite Hrun in Hlog. exists l, e, s'. repeat split; auto.
  unfold GetOrderItemsDetailsList in Hrun.
  apply detailsLoop_result in Hrun as (l' & -> & He). exact He.
Qed.

(** X9. [GetOrderItemsDetailsList] always returns to its caller, having
    written neither map and asked for no update. Without an error its list
    has one entry per stored line item of the order, in order, with the
    product id and the quantity of that item; an order id without line
    items gives the empty list. With an error the list covers the line
    items before the first product that could not be fetched, and the
    error names that product. *)
Theorem GetOrderItemsDetailsList_result orderId (s : St) :
  exists l e s',
    GetOrderItemsDetailsList orderId s = (inl (l, e), s') /\
    orders s' = orders s /\ orderItems s' = orderItems s /\
    (exists extra,
       calls s' = (calls s ++ extra)%list /\ updatedIds extra = []) /\
    match e with
    | None =>
        map lineOfResponse l
        = map lineOf (default [] (orderItems s !! orderId))
    | Some err =>
        exists pre bad post,
          default [] (orderItems s !! orderId) = (pre ++ bad :: post)%list /\
          map lineOfResponse l = map lineOf pre /\
          err = "product with id: " +:+ ProductId bad +:+ ", does not exist"
    end.
Proof. apply GetOrderItemsDetailsList_result_holds. Qed.

(** *** The phases of a placement, once more *)

(** The line items a request is stored as. *)
Definition linesOf (orderId : string) (oReq : CreateOrderRequest)
  : list OrderItem :=
  map (fun item =>
         mkOrderItem (req_ProductId item) (req_Quantity item) orderId)
    (Items oReq).

Lemma priceItem_items (ToLower : string -> string) orderId items :
  forall a n ois (s : St) a' n' ois' s',
    for_fold (priceItem ToLower orderId) items (a, n, ois) s
    = (inl (a', n', ois'), s') ->
    ois' = (ois ++ map (fun item =>
                          mkOrderItem (req_ProductId item)
                            (req_Quantity item) orderId) items)%list.
Proof.
  induction items as [| item rest IH]; intros a n ois s a' n' ois' s'; simpl.
  - intros [= _ _ <- _]. rewrite app_nil_r. reflexivity.
  - unfold bind at 1, priceItem, bind, GetProductDetails.
    destruct (rpc_GetProductDetails _ _) as [[pd |] w]; [| discriminate].
    intros H. apply IH in H. rewrite H, <- app_assoc. reflexivity.
Qed.

Lemma applyDiscount_Discount o orderAmount n :
  Discount o = 0 ->
  Discount (applyDiscount o orderAmount n) = 0 \/
  Discount (applyDiscount o orderAmount n) = 10.
Proof. intros H. unfold applyDiscount. destruct (3 <=? n); simpl; auto. Qed.

(** What has happened when the order is written: the request is valid,
    the order is the new one, placed at the time of the request, its line
    items are those of the request, and no update has been asked for. *)
Lemma persisted_shape (ToLower : string -> string) oReq newId currentTime
  (s : St) o oItems s3 :
  persisted ToLower oReq newId currentTime s = Some (o, oItems, s3) ->
  CreateOrderRequest_Validate ToLower oReq = None /\
  oItems = linesOf newId oReq /\
  ID o = newId /\ Status o = OrderPlaced /\ DispatchedAt o = "" /\
  CreatedAt o = currentTime /\ UpdatedAt o = currentTime /\
  (Discount o = 0 \/ Discount o = 10) /\
  exists extra, calls s3 = (calls s ++ extra)%list /\ updatedIds extra = [].
Proof.
  unfold persisted.
  destruct (CreateOrderRequest_Validate ToLower oReq); [discriminate |].
  destruct (readsOnly_for_each checkStock (Items oReq)
              readsOnly_checkStock s) as (e1 & H1 & U1).
  destruct (for_each checkStock (Items oReq) s) as [[[] | r] s1];
    [| discriminate].
  destruct (readsOnly_for_fold (priceItem ToLower newId) (Items oReq)
              (readsOnly_priceItem ToLower newId) (0%float, 0, []) s1)
    as (e2 & H2 & U2).
  destruct (for_fold (priceItem ToLower newId) (Items oReq) _ s1)
    as [[[[a n] ois] | r] s2] eqn:E; [| discriminate].
  apply priceItem_items in E. simpl in E, H1, H2.
  intros [= <- <- <-].
  destruct (applyDiscount_frame (newOrder newId currentTime) a n)
    as (HID & HSt & HDi & HCr & HUp).
  repeat split; auto.
  - apply applyDiscount_Discount. reflexivity.
  - exists (e1 ++ e2)%list. simpl.
    rewrite H2, H1, <- app_assoc, updatedIds_app, U1, U2. auto.
Qed.

(** A request that stops before the order is written has asked for no
    update; when it passed the validation the answer is 404. *)
Lemma not_persisted_log (ToLower : string -> string) oReq newId currentTime
  (s : St) :
  persisted ToLower oReq newId currentTime s = None ->
  (exists extra,
     calls (snd (PlaceOrderHandler ToLower oReq newId currentTime s))
     = (calls s ++ extra)%list /\ updatedIds extra = []) /\
  (CreateOrderRequest_Validate ToLower oReq = None ->
   code (fst (PlaceOrderHandler ToLower oReq newId currentTime s))
   = StatusNotFound).
Proof.
  unfold persisted, PlaceOrderHandler.
  destruct (CreateOrderRequest_Validate ToLower oReq).
  { intros _. split; [| discriminate]. exists []. simpl.
    rewrite app_nil_r. auto. }
  rewrite run_bind.
  destruct (readsOnly_for_each checkStock (Items oReq)
              readsOnly_checkStock s) as (e1 & H1 & U1).
  pose proof (checkStock_code (Items oReq) s) as Hc1.
  destruct (for_each checkStock (Items oReq) s) as [[[] | r] s1].
  2: { intros _. simpl in *. split; [eauto |]. intros _.
       eapply Hc1. reflexivity. }
  cbv zeta. rewrite run_bind.
  change (ID (newOrder newId currentTime)) with newId.
  destruct (readsOnly_for_fold (priceItem ToLower newId) (Items oReq)
              (readsOnly_priceItem ToLower newId) (0%float, 0, []) s1)
    as (e2 & H2 & U2).
  pose proof (priceItem_code ToLower newId (Items oReq) (0%float, 0, []) s1)
    as Hc2.
  destruct (for_fold (priceItem ToLower newId) (Items oReq) _ s1)
    as [[[[a n] ois] | r] s2]; [discriminate |].
  intros _. simpl in *. split.
  - exists (e1 ++ e2)%list.
    rewrite H2, H1, <- app_assoc, updatedIds_app, U1, U2. auto.
  - intros _. eapply Hc2. reflexivity.
Qed.

(** The handler from the inventory adjustment on: its calls, its answer. *)
Lemma finish_result oReq o (s3 : St) :
  exists extra,
    calls (snd (run (finish oReq o) s3)) = (calls s3 ++ extra)%list /\
    (exists n,
       updatedIds extra = take n (map req_ProductId (Items oReq))) /\
    (code (fst (run (finish oReq o) s3)) = StatusOK \/
     code (fst (run (finish oReq o) s3)) = StatusNotFound \/
     code (fst (run (finish oReq o) s3)) = StatusInternalServerError) /\
    (code (fst (run (finish oReq o) s3)) = StatusOK ->
     updatedIds extra = map req_ProductId (Items oReq) /\
     exists l,
       fst (run (finish oReq o) s3)
       = mkResponse StatusOK
           (Json (mkOrderResp (ID o) l (Discount o) (Amount o) (Status o) ""
                    (CreatedAt o) (UpdatedAt o))) /\
       map lineOfResponse l
       = map lineOf (default [] (orderItems s3 !! ID o))).
Proof.
  unfold finish. rewrite run_bind.
  destruct (adjust_calls (Items oReq) s3) as (e1 & H1 & U1).
  pose proof (preserves_for_each adjustItem (Items oReq)
                preserves_adjustItem s3) as [_ Hi].
  destruct (for_each adjustItem (Items oReq) s3) as [[[] | r] sa];
    simpl in H1, U1, Hi.
  - rewrite run_bind.
    destruct (GetOrderItemsDetailsList_result_holds (ID o) sa)
      as (l & e & s4 & Hrun & _ & _ & (e2 & H2 & U2) & He).
    rewrite Hrun. simpl snd.
    assert (Hlog : calls s4 = (calls s3 ++ (e1 ++ e2))%list /\
                   updatedIds (e1 ++ e2)%list
                   = map req_ProductId (Items oReq)).
    { rewrite H2, H1, <- app_assoc, updatedIds_app, U1, U2, app_nil_r.
      auto. }
    destruct Hlog as [Hlog Hup].
    assert (Hn : exists n,
               updatedIds (e1 ++ e2)%list
               = take n (map req_ProductId (Items oReq))).
    { exists (length (map req_ProductId (Items oReq))).
      rewrite firstn_all. exact Hup. }
    exists (e1 ++ e2)%list. destruct e as [err |].
    + simpl. repeat split; auto. discriminate.
    + unfold writeOrder. destruct (marshals _); simpl;
        (split; [exact Hlog |]); (split; [exact Hn |]).
      * split; [auto |]. intros _. split; [exact Hup |].
        exists l. split; [reflexivity |]. rewrite He, Hi. reflexivity.
      * split; [auto |]. discriminate.
  - exists e1. simpl. destruct U1 as [Hn Hc].
    split; [exact H1 |]. split; [exact Hn |]. split; [auto |].
    intros H200. rewrite H200 in Hc. destruct Hc; discriminate.
Qed.

(** X10. The status codes of a placement. The answer is 400, 404, 200 or
    500. It is 400 exactly when the structural validation fails, and then
    the state is untouched. A 200 or a 500 is only written after the order
    has been stored: the order is then in [orders] under the new id, placed
    and stamped with the time of the request. (A 404 is written on both
    sides of the write.) *)
Theorem PlaceOrderHandler_codes (ToLower : string -> string) oReq newId
  currentTime (s : St) :
  let result := PlaceOrderHandler ToLower oReq newId currentTime s in
  (code (fst result) = StatusBadRequest \/
   code (fst result) = StatusNotFound \/
   code (fst result) = StatusOK \/
   code (fst result) = StatusInternalServerError) /\
  (code (fst result) = StatusBadRequest <->
   CreateOrderRequest_Validate ToLower oReq <> None) /\
  (code (fst result) = StatusBadRequest -> snd result = s) /\
  (code (fst result) = StatusOK \/
   code (fst result) = StatusInternalServerError ->
   exists o,
     orders (snd result) !! newId = Some o /\ Status o = OrderPlaced /\
     CreatedAt o = currentTime /\ UpdatedAt o = currentTime).
Proof.
  cbv zeta.
  destruct (CreateOrderRequest_Validate ToLower oReq) as [err |] eqn:Hv.
  { rewrite (PlaceOrderHandler_invalid ToLower _ _ _ _ _ Hv). simpl.
    split; [auto |]. split; [split; [discriminate | reflexivity] |].
    split; [reflexivity |]. intros [H | H]; discriminate. }
  destruct (persisted ToLower oReq newId currentTime s)
    as [[[o oItems] s3] |] eqn:Hp.
  - destruct (PlaceOrderHandler_persisted ToLower _ _ _ _ _ _ _ Hp)
      as (Heq & Ho & _).
    destruct (persisted_shape ToLower _ _ _ _ _ _ _ Hp)
      as (_ & _ & _ & HSt & _ & HCr & HUp & _).
    destruct (finish_result oReq o s3) as (e & _ & _ & Hc & _).
    rewrite <- Heq in Hc.
    split; [tauto |]. split.
    + split; [| intros H; contradiction].
      intros H. rewrite H in Hc. destruct Hc as [Hc | [Hc | Hc]]; discriminate.
    + split.
      * intros H. rewrite H in Hc.
        destruct Hc as [Hc | [Hc | Hc]]; discriminate.
      * intros _. exists o. rewrite Ho, lookup_insert_eq. auto.
  - destruct (not_persisted_log ToLower _ _ _ _ Hp) as [_ Hc].
    rewrite (Hc Hv). split; [auto |].
    split; [split; [discriminate | intros H; contradiction] |].
    split; [discriminate |]. intros [H | H]; discriminate.
Qed.

Lemma PlaceOrderHandler_success_holds (ToLower : string -> string) oReq newId
  currentTime (s : St) b :
  fst (PlaceOrderHandler ToLower oReq newId currentTime s)
  = mkResponse StatusOK b ->
  exists o l,
    orders (snd (PlaceOrderHandler ToLower oReq newId currentTime s)) !! newId
    = Some o /\
    orderItems (snd (PlaceOrderHandler ToLower oReq newId currentTime s))
    !! newId = Some (linesOf newId oReq) /\
    ID o = newId /\ Status o = OrderPlaced /\ DispatchedAt o = "" /\
    CreatedAt o = currentTime /\ UpdatedAt o = currentTime /\
    (Discount o = 0 \/ Discount o = 10) /\
    b = Json (mkOrderResp newId l (Discount o) (Amount o) OrderPlaced ""
                currentTime currentTime) /\
    map lineOfResponse l
    = map (fun item => (req_ProductId item, req_Quantity item)) (Items oReq).
Proof.
  intros H200.
  destruct (persisted ToLower oReq newId currentTime s)
    as [[[o oItems] s3] |] eqn:Hp.
  - destruct (PlaceOrderHandler_persisted ToLower _ _ _ _ _ _ _ Hp)
      as (Heq & Ho & Hi & _ & Hi3 & _).
    destruct (persisted_shape ToLower _ _ _ _ _ _ _ Hp)
      as (_ & -> & HID & HSt & HDi & HCr & HUp & HDisc & _).
    destruct (finish_result oReq o s3) as (e & _ & _ & _ & Hok).
    rewrite <- Heq, H200 in Hok.
    destruct (Hok eq_refl) as (_ & l & Hb & Hl).
    injection Hb as ->. exists o, l.
    rewrite Ho, Hi, !lookup_insert_eq. rewrite HID, HSt, HCr, HUp.
    repeat split; auto.
    rewrite Hl, Hi3, HID, lookup_insert_eq. simpl. unfold linesOf.
    rewrite map_map. reflexivity.
  - destruct (not_persisted_log ToLower _ _ _ _ Hp) as [_ Hc].
    destruct (CreateOrderRequest_Validate ToLower oReq) eqn:Hv.
    + rewrite (PlaceOrderHandler_invalid ToLower _ _ _ _ _ Hv) in H200.
      discriminate.
    + rewrite H200 in Hc. discriminate (Hc eq_refl).
Qed.

(** X11. A placement answered 200 has stored the request as it is: the
    order under the new id is placed, never dispatched, created and updated
    at the time of the request, with a discount of 0 or 10; its line items
    are the items of the request, in order, each with the new order id; and
    the answer carries the fields of that order and one entry per line
    item, with its product id and quantity. *)
Theorem PlaceOrderHandler_success (ToLower : string -> string) oReq newId
  currentTime (s : St) b :
  fst (PlaceOrderHandler ToLower oReq newId currentTime s)
  = mkResponse StatusOK b ->
  exists o l,
    orders (snd (PlaceOrderHandler ToLower oReq newId currentTime s)) !! newId
    = Some o /\
    orderItems (snd (PlaceOrderHandler ToLower oReq newId currentTime s))
    !! newId = Some (linesOf newId oReq) /\
    ID o = newId /\ Status o = OrderPlaced /\ DispatchedAt o = "" /\
    CreatedAt o = currentTime /\ UpdatedAt o = currentTime /\
    (Discount o = 0 \/ Discount o = 10) /\
    b = Json (mkOrderResp newId l (Discount o) (Amount o) OrderPlaced ""
                currentTime currentTime) /\
    map lineOfResponse l
    = map (fun item => (req_ProductId item, req_Quantity item)) (Items oReq).
Proof. apply PlaceOrderHandler_success_holds. Qed.

(** X12. The calls to [UpdateProductQuantity] of a placement: they are for
    the product ids of a prefix of the request, in the order of the request;
    for all of them when the answer is 200; and there is none when the
    handler ends with no order under the new id, so the inventory is never
    touched for an order that was not stored. *)
Theorem PlaceOrderHandler_updates (ToLower : string -> string) oReq newId
  currentTime (s : St) :
  let result := PlaceOrderHandler ToLower oReq newId currentTime s in
  exists extra,
    calls (snd result) = (calls s ++ extra)%list /\
    (exists n, updatedIds extra = take n (map req_ProductId (Items oReq))) /\
    (code (fst result) = StatusOK ->
     updatedIds extra = map req_ProductId (Items oReq)) /\
    (orders (snd result) !! newId = None -> updatedIds extra = []).
Proof.
  cbv zeta.
  destruct (persisted ToLower oReq newId currentTime s)
    as [[[o oItems] s3] |] eqn:Hp.
  - destruct (PlaceOrderHandler_persisted ToLower _ _ _ _ _ _ _ Hp)
      as (Heq & Ho & _).
    destruct (persisted_shape ToLower _ _ _ _ _ _ _ Hp)
      as (_ & _ & _ & _ & _ & _ & _ & _ & e1 & H1 & U1).
    destruct (finish_result oReq o s3) as (e2 & H2 & Hn & _ & Hok).
    rewrite <- Heq in H2, Hok.
    exists (e1 ++ e2)%list.
    rewrite H2, H1, <- app_assoc, updatedIds_app, U1. simpl.
    split; [reflexivity |]. split; [exact Hn |]. split.
    + intros H. apply Hok, H.
    + rewrite Ho, lookup_insert_eq. discriminate.
  - destruct (not_persisted_log ToLower _ _ _ _ Hp) as [(e & He & Ue) _].
    exists e. rewrite Ue. split; [exact He |].
    split; [exists 0%nat; reflexivity |]. split; [| reflexivity].
    intros H.
    destruct (PlaceOrderHandler_not_persisted ToLower _ _ _ _ Hp)
      as [_ [Hc | Hc]]; rewrite H in Hc; discriminate.
Qed.

(** X13. A placement writes one key: every other order and its line items
    are as they were, whatever the answer, and no order is removed. *)
Theorem PlaceOrderHandler_frame (ToLower : string -> string) oReq newId
  currentTime (s : St) k :
  k <> newId ->
  orders (snd (PlaceOrderHandler ToLower oReq newId currentTime s)) !! k
  = orders s !! k /\
  orderItems (snd (PlaceOrderHandler ToLower oReq newId currentTime s)) !! k
  = orderItems s !! k.
Proof.
  intros Hk.
  destruct (persisted ToLower oReq newId currentTime s)
    as [[[o oItems] s3] |] eqn:Hp.
  - destruct (PlaceOrderHandler_persisted ToLower _ _ _ _ _ _ _ Hp)
      as (_ & Ho & Hi & _).
    rewrite Ho, Hi. split; apply lookup_insert_ne; congruence.
  - destruct (PlaceOrderHandler_not_persisted ToLower _ _ _ _ Hp)
      as [[Ho Hi] _].
    rewrite Ho, Hi. auto.
Qed.

(** *** Reading an order back *)

Lemma GetOrderDetailsHandler_result_holds orderId (s : St) o :
  orders s !! orderId = Some o ->
  let result := GetOrderDetailsHandler orderId s in
  orders (snd result) = orders s /\ orderItems (snd result) = orderItems s /\
  (exists extra,
     calls (snd result) = (calls s ++ extra)%list /\ updatedIds extra = []) /\
  (code (fst result) = StatusOK \/
   code (fst result) = StatusInternalServerError) /\
  (forall b, fst result = mkResponse StatusOK b ->
   exists l,
     b = Json (mkOrderResp (ID o) l (Discount o) (Amount o) (Status o)
                 (DispatchedAt o) (CreatedAt o) (UpdatedAt o)) /\
     map lineOfResponse l
     = map lineOf (default [] (orderItems s !! ID o))).
Proof.
  intros Ho. cbv zeta.
  unfold GetOrderDetailsHandler. rewrite run_bind. unfold lookupOrder.
  rewrite Ho, run_bind.
  destruct (GetOrderItemsDetailsList_result_holds (ID o) s)
    as (l & e & s' & Hrun & Ho' & Hi' & Hlog & He).
  rewrite Hrun. simpl snd. destruct e as [err |].
  - simpl. repeat split; auto. intros b [=].
  - unfold writeOrder. destruct (marshals _); simpl; repeat split; auto.
    + intros b [= <-]. exists l. auto.
    + intros b [=].
Qed.

(** X14. The handler that reads one order, on an order that exists: it
    writes neither map and asks for no update; the answer is 200 or 500;
    and a 200 carries the stored fields of the order, its discount and its
    dispatch time included, with one entry per line item stored under the
    [ID] of the order. *)
Theorem GetOrderDetailsHandler_result orderId (s : St) o :
  orders s !! orderId = Some o ->
  let result := GetOrderDetailsHandler orderId s in
  orders (snd result) = orders s /\ orderItems (snd result) = orderItems s /\
  (exists extra,
     calls (snd result) = (calls s ++ extra)%list /\ updatedIds extra = []) /\
  (code (fst result) = StatusOK \/
   code (fst result) = StatusInternalServerError) /\
  (forall b, fst result = mkResponse StatusOK b ->
   exists l,
     b = Json (mkOrderResp (ID o) l (Discount o) (Amount o) (Status o)
                 (DispatchedAt o) (CreatedAt o) (UpdatedAt o)) /\
     map lineOfResponse l
     = map lineOf (default [] (orderItems s !! ID o))).
Proof. apply GetOrderDetailsHandler_result_holds. Qed.

(** X15. Round trip. After a placement answered 200, reading the new id
    never answers 404, and when it answers 200 the answer is the answer of
    the placement: the same id, discount, amount, status, timestamps, and
    the same product ids and quantities (the product details are fetched
    again, so names and prices may differ). *)
Theorem place_then_get (ToLower : string -> string) oReq newId currentTime
  (s : St) r :
  fst (PlaceOrderHandler ToLower oReq newId currentTime s)
  = mkResponse StatusOK (Json r) ->
  let s' := snd (PlaceOrderHandler ToLower oReq newId currentTime s) in
  code (fst (GetOrderDetailsHandler newId s')) <> StatusNotFound /\
  (forall r',
     fst (GetOrderDetailsHandler newId s') = mkResponse StatusOK (Json r') ->
     resp_ID r' = resp_ID r /\ resp_Discount r' = resp_Discount r /\
     resp_Amount r' = resp_Amount r /\ resp_Status r' = resp_Status r /\
     resp_DispatchedAt r' = resp_DispatchedAt r /\
     resp_CreatedAt r' = resp_CreatedAt r /\
     resp_UpdatedAt r' = resp_UpdatedAt r /\
     map lineOfResponse (resp_Items r') = map lineOfResponse (resp_Items r)).
Proof.
  intros H200. cbv zeta.
  destruct (PlaceOrderHandler_success_holds ToLower _ _ _ _ _ H200)
    as (o & l & Ho & Hi & HID & HSt & HDi & HCr & HUp & _ & Hb & Hl).
  injection Hb as ->.
  destruct (GetOrderDetailsHandler_result_holds newId _ o Ho)
    as (_ & _ & _ & Hc & Hget).
  split.
  - intros H. rewrite H in Hc. destruct Hc; discriminate.
  - intros r' Hr'. destruct (Hget _ Hr') as (l' & Hb' & Hl').
    injection Hb' as ->. simpl.
    rewrite HID, HSt, HDi, HCr, HUp. repeat split; auto.
    rewrite Hl', Hl, HID, Hi. simpl. unfold linesOf.
    rewrite map_map. reflexivity.
Qed.

(** *** Listing the orders *)

(** What [GetOrdersHandler] writes: one of the bodies of the other
    handlers, or the list of the orders. *)
Inductive OrdersBody :=
| Plain (b : Body)
| JsonList (l : list CreateOrderResponse).

(** The loop of [GetOrdersHandler] over the orders in [visit], with the
    list built so far. *)
Fixpoint ordersLoop (visit : list Order)
  (orderList : list CreateOrderResponse) : M (list CreateOrderResponse) :=
  match visit with
  | [] => ret orderList
  | o :: rest =>
      details <- GetOrderItemsDetailsList (ID o) ;;
      match snd details with
      | Some err => respond StatusInternalServerError (Text err)
      | None =>
          ordersLoop rest
            (orderList ++
             [mkOrderResp (ID o) (fst details) (Discount o) (Amount o)
                (Status o) (DispatchedAt o) (CreatedAt o) (UpdatedAt o)])
      end
  end.

(** [GetOrdersHandler]. The [range] over the map [orders] visits its
    values in an order the language leaves open: [visit] is that order, a
    permutation of the values of the map. The encoding of the list fails
    on a float that is NaN or infinite, as for one order. (The empty list
    stands for the nil slice the handler encodes when there is no order.) *)
Definition GetOrdersHandler (visit : list Order) (s : St)
  : Z * OrdersBody * St :=
  match ordersLoop visit [] s with
  | (inr r, s') => (code r, Plain (body r), s')
  | (inl orderList, s') =>
      if forallb marshals orderList
      then (StatusOK, JsonList orderList, s')
      else (StatusInternalServerError, Plain NoBody, s')
  end.

(** The projection [r] shows the order [o]. *)
Definition shows (r : CreateOrderResponse) (o : Order) : Prop :=
  resp_ID r = ID o /\ resp_Discount r = Discount o /\
  resp_Amount r = Amount o /\ resp_Status r = Status o /\
  resp_DispatchedAt r = DispatchedAt o /\ resp_CreatedAt r = CreatedAt o /\
  resp_UpdatedAt r = UpdatedAt o.

Lemma ordersLoop_result visit :
  forall acc (s : St),
    orders (snd (ordersLoop visit acc s)) = orders s /\
    orderItems (snd (ordersLoop visit acc s)) = orderItems s /\
    (exists extra,
       calls (snd (ordersLoop visit acc s)) = (calls s ++ extra)%list /\
       updatedIds extra = []) /\
    match fst (ordersLoop visit acc s) with
    | inl l =>
        exists l',
          l = (acc ++ l')%list /\ Forall2 shows l' visit /\
          Forall2
            (fun r o =>
               map lineOfResponse (resp_Items r)
               = map lineOf (default [] (orderItems s !! ID o)))
            l' visit
    | inr r => code r = StatusInternalServerError
    end.
Proof.
  induction visit as [| o rest IH]; intros acc s; simpl.
  - repeat split; auto.
    + exists []. rewrite app_nil_r. auto.
    + exists []. rewrite app_nil_r. repeat split; constructor.
  - unfold bind.
    destruct (GetOrderItemsDetailsList_result_holds (ID o) s)
      as (l & e & s1 & Hrun & Ho & Hi & (e1 & H1 & U1) & He).
    rewrite Hrun. destruct e as [err |]; simpl.
    + repeat split; auto. exists e1. auto.
    + match goal with
      | |- context [ordersLoop rest ?a s1] =>
          destruct (IH a s1) as (Ho' & Hi' & (e2 & H2 & U2) & Hl)
      end.
      rewrite Ho', Hi', Ho, Hi. repeat split; auto.
      * exists (e1 ++ e2)%list.
        rewrite H2, H1, <- app_assoc, updatedIds_app, U1, U2. auto.
      * destruct (fst (ordersLoop rest _ s1)) as [l0 | r]; [| exact Hl].
        destruct Hl as (l' & -> & Hshow & Hlines).
        eexists (_ :: l'). rewrite <- app_assoc. split; [reflexivity |].
        split; constructor; auto.
        -- unfold shows. simpl. repeat split.
        -- eapply Forall2_impl; [exact Hlines |].
           intros r x Hr. rewrite Hr, Hi. reflexivity.
Qed.

(** X17. The handler that lists the orders writes neither map and asks for
    no update. Its answer is 200 or 500, and a 200 carries one projection
    per stored order, in the order the map was visited, each with the
    stored fields of its order, discount and dispatch time included, and
    with the product ids and quantities of its line items; so on a store
    where every order is under its own id, the ids in the answer are the
    keys of [orders], each once. *)
Theorem GetOrdersHandler_result (visit : list Order) (s : St) :
  visit ≡ₚ (map_to_list (orders s)).*2 ->
  let result := GetOrdersHandler visit s in
  orders (snd result) = orders s /\ orderItems (snd result) = orderItems s /\
  (exists extra,
     calls (snd result) = (calls s ++ extra)%list /\ updatedIds extra = []) /\
  (fst (fst result) = StatusOK \/
   fst (fst result) = StatusInternalServerError) /\
  (forall l, snd (fst result) = JsonList l ->
   fst (fst result) = StatusOK /\
   length l = size (orders s) /\
   Forall2 shows l visit /\
   Forall2
     (fun r o =>
        map lineOfResponse (resp_Items r)
        = map lineOf (default [] (orderItems s !! ID o)))
     l visit /\
   (store_wf s -> map resp_ID l ≡ₚ (map_to_list (orders s)).*1)).
Proof.
  intros Hperm. cbv zeta. unfold GetOrdersHandler.
  destruct (ordersLoop_result visit [] s) as (Ho & Hi & Hlog & Hl).
  destruct (ordersLoop visit [] s) as [[l | r] s'] eqn:E; simpl in *.
  - destruct Hl as (l' & -> & Hshow & Hlines). simpl.
    destruct (forallb marshals l'); simpl;
      (split; [exact Ho |]); (split; [exact Hi |]);
      (split; [exact Hlog |]); (split; [auto |]);
      [| intros l0 [=]].
    intros l0 [= <-]. split; [reflexivity |].
    split; [| split; [exact Hshow | split; [exact Hlines |]]].
    + rewrite (Forall2_length _ _ _ Hshow), Hperm, length_fmap.
      apply length_map_to_list.
    + intros Hwf.
      assert (Hids : map resp_ID l' = map ID visit).
      { clear -Hshow. induction Hshow as [| r o l1 l2 [Hid _] _ IH];
          simpl; [reflexivity | rewrite Hid, IH; reflexivity]. }
      rewrite Hids, Hperm.
      assert (Hkeys : forall kvs : list (string * Order),
                (forall k o, (k, o) ∈ kvs -> ID o = k) ->
                map ID (kvs.*2) = kvs.*1).
      { induction kvs as [| [k o] kvs IH]; intros H; simpl; [reflexivity |].
        rewrite (H k o) by constructor. f_equal. apply IH.
        intros k' o' Hin. apply H. constructor. exact Hin. }
      rewrite Hkeys; [reflexivity |].
      intros k o Hin. apply elem_of_map_to_list in Hin. apply (Hwf k o Hin).
  - rewrite Hl. split; [exact Ho |]. split; [exact Hi |].
    split; [exact Hlog |]. split; [auto |]. intros l0 [=].
Qed.

Lemma GetOrdersHandler_same_store (visit : list Order) (s : St) :
  orders (snd (GetOrdersHandler visit s)) = orders s /\
  orderItems (snd (GetOrdersHandler visit s)) = orderItems s.
Proof.
  unfold GetOrdersHandler.
  destruct (ordersLoop_result visit [] s) as (Ho & Hi & _).
  destruct (ordersLoop visit [] s) as [[l | r] s']; simpl in *;
    [destruct (forallb marshals l) |]; simpl; auto.
Qed.

(** *** What every stored order satisfies *)

(** One request to the service, with the values the handler reads from
    its environment. *)
Inductive Request :=
| Place (oReq : CreateOrderRequest) (newId currentTime : string)
| UpdateStatus (orderId : string) (req : UpdateOrderStatusRequest)
    (now : string)
| GetDetails (orderId : string)
| ListOrders (visit : list Order).

(** The state a request leaves. *)
Definition serve (ToLower : string -> string) (r : Request) (s : St) : St :=
  match r with
  | Place oReq newId currentTime =>
      snd (PlaceOrderHandler ToLower oReq newId currentTime s)
  | UpdateStatus orderId req now =>
      snd (UpdateOrderStatusHandler orderId req now s)
  | GetDetails orderId => snd (GetOrderDetailsHandler orderId s)
  | ListOrders visit => snd (GetOrdersHandler visit s)
  end.

(** The state after a sequence of requests. *)
Fixpoint serveAll (ToLower : string -> string) (l : list Request) (s : St)
  : St :=
  match l with
  | [] => s
  | r :: rest => serveAll ToLower rest (serve ToLower r s)
  end.

(** A stored line item: it belongs to the order it is stored under, and it
    passed the validation. *)
Definition lineOk (k : string) (item : OrderItem) : Prop :=
  OrderId item = k /\ ProductId item <> "" /\
  1 <= ProductQuantity item <= 10.

Definition orderOk (ToLower : string -> string) (s : St) (k : string)
  (o : Order) : Prop :=
  ID o = k /\ Status o ∈ statuses /\
  (Discount o = 0 \/ Discount o = 10) /\
  (Status o = OrderPlaced -> DispatchedAt o = "") /\
  exists items,
    orderItems s !! k = Some items /\ items <> [] /\
    Forall (lineOk k) items /\
    NoDup (map (fun item => ToLower (ProductId item)) items).

Definition storeInvariant (ToLower : string -> string) (s : St) : Prop :=
  dom (orders s) = dom (orderItems s) /\
  forall k o, orders s !! k = Some o -> orderOk ToLower s k o.

Lemma storeInvariant_wf ToLower (s : St) :
  storeInvariant ToLower s -> store_wf s.
Proof. intros [_ H] k o Ho. apply (H k o Ho). Qed.

Lemma linesOf_ok ToLower newId oReq :
  CreateOrderRequest_Validate ToLower oReq = None ->
  linesOf newId oReq <> [] /\
  Forall (lineOk newId) (linesOf newId oReq) /\
  NoDup (map (fun item => ToLower (ProductId item)) (linesOf newId oReq)).
Proof.
  intros Hv. apply Validate_None in Hv as (Hne & Hnd & Hall).
  unfold linesOf. split; [| split].
  - destruct (Items oReq); [contradiction | discriminate].
  - apply Forall_map. eapply Forall_impl; [exact Hall |].
    intros item [Hid Hq]. unfold lineOk, quantityInRange in *. simpl. auto.
  - rewrite map_map. exact Hnd.
Qed.

Lemma Place_invariant ToLower oReq newId currentTime (s : St) :
  storeInvariant ToLower s ->
  storeInvariant ToLower
    (snd (PlaceOrderHandler ToLower oReq newId currentTime s)).
Proof.
  intros [Hdom Hall].
  destruct (persisted ToLower oReq newId currentTime s)
    as [[[o oItems] s3] |] eqn:Hp.
  - destruct (PlaceOrderHandler_persisted ToLower _ _ _ _ _ _ _ Hp)
      as (_ & Ho & Hi & _).
    destruct (persisted_shape ToLower _ _ _ _ _ _ _ Hp)
      as (Hv & -> & HID & HSt & HDi & _ & _ & HDisc & _).
    split; [rewrite Ho, Hi, !dom_insert_L, Hdom; reflexivity |].
    intros k x. rewrite Ho, lookup_insert. case_decide.
    + intros [= <-]. subst k. unfold orderOk.
      rewrite Hi, lookup_insert_eq, HSt.
      split; [exact HID |]. split; [repeat constructor |].
      split; [exact HDisc |]. split; [intros _; exact HDi |].
      exists (linesOf newId oReq). split; [reflexivity |].
      apply linesOf_ok, Hv.
    + intros Hx. destruct (Hall k x Hx) as (H1 & H2 & H3 & H4 & items & H5).
      unfold orderOk. rewrite Hi, lookup_insert_ne by congruence.
      repeat split; auto. exists items. exact H5.
  - destruct (PlaceOrderHandler_not_persisted ToLower _ _ _ _ Hp)
      as [[Ho Hi] _].
    split; [rewrite Ho, Hi; exact Hdom |].
    intros k x. rewrite Ho. intros Hx. unfold orderOk. rewrite Hi.
    apply (Hall k x Hx).
Qed.

Lemma UpdateStatus_invariant ToLower orderId req now (s : St) :
  storeInvariant ToLower s ->
  storeInvariant ToLower (snd (UpdateOrderStatusHandler orderId req now s)).
Proof.
  intros Hinv. pose proof (storeInvariant_wf _ _ Hinv) as Hwf.
  destruct Hinv as [Hdom Hall].
  destruct (UpdateOrderStatusHandler_frame_holds orderId req now s Hwf)
    as (Hi & Hother & Hd).
  split; [rewrite Hd, Hi; exact Hdom |].
  intros k x Hx. unfold orderOk. rewrite Hi.
  destruct (decide (k = orderId)) as [-> | Hk].
  2: { rewrite Hother in Hx by exact Hk. apply (Hall k x Hx). }
  destruct (acceptedUpdate orderId req s) as [o |] eqn:E.
  - destruct (UpdateOrderStatusHandler_accepted orderId req now s o E)
      as (Ho & _ & _).
    apply acceptedUpdate_Some in E as (Hv & Hl & Ht).
    destruct (Hall orderId o Hl) as (H1 & H2 & H3 & H4 & H5).
    rewrite Ho, H1, lookup_insert_eq in Hx. injection Hx as <-.
    destruct (withStatus_frame o (req_Status req) now) as (Hdisc & _ & _).
    rewrite withStatus_ID, withStatus_Status, Hdisc.
    apply Validate_status_iff in Hv.
    repeat split; auto.
    intros Hplaced. exfalso. rewrite Hplaced in Ht.
    pose proof (rank_bounds _ H2) as Hb. unfold transitionError in Ht.
    change (rank OrderPlaced) with 1 in Ht.
    destruct (Z.leb_spec 1 (rank (Status o))); [discriminate | lia].
  - destruct (UpdateOrderStatusHandler_rejected orderId req now s E)
      as (c & reason & Hr & _).
    rewrite Hr in Hx. apply (Hall orderId x Hx).
Qed.

Lemma GetDetails_same_store orderId (s : St) :
  orders (snd (GetOrderDetailsHandler orderId s)) = orders s /\
  orderItems (snd (GetOrderDetailsHandler orderId s)) = orderItems s.
Proof.
  destruct (orders s !! orderId) as [o |] eqn:Ho.
  - destruct (GetOrderDetailsHandler_result_holds orderId s o Ho) as (H1 & H2 & _).
    auto.
  - rewrite (get_unknown_order_not_found_holds orderId s Ho). auto.
Qed.

(** X16. Whatever requests have been served since the service started with
    its two maps empty, for every stored order: its key is its [ID]; its
    status is one of the five; its discount is 0 or 10; while it is placed
    it has no dispatch time; and it has line items, stored under the same
    key, each with that order id, a product id that is not empty and a
    quantity from 1 to 10, with no product id twice, whatever the case. *)
Theorem stored_orders_are_valid (ToLower : string -> string)
  (l : list Request) (w : World) :
  storeInvariant ToLower (serveAll ToLower l (mkState ∅ ∅ w [])).
Proof.
  assert (H0 : storeInvariant ToLower (mkState ∅ ∅ w [])).
  { split; [simpl; rewrite !dom_empty_L; reflexivity |].
    intros k o. simpl. rewrite lookup_empty. discriminate. }
  revert H0. generalize (mkState ∅ ∅ w []).
  induction l as [| r rest IH]; intros s Hs; simpl; [exact Hs |].
  apply IH.
  destruct r as [oReq newId t | orderId req now | orderId | visit]; simpl.
  - apply Place_invariant, Hs.
  - apply UpdateStatus_invariant, Hs.
  - destruct (GetDetails_same_store orderId s) as [Ho Hi].
    destruct Hs as [Hdom Hall]. split; [rewrite Ho, Hi; exact Hdom |].
    intros k x. rewrite Ho. intros Hx. unfold orderOk. rewrite Hi.
    apply (Hall k x Hx).
  - destruct (GetOrdersHandler_same_store visit s) as [Ho Hi].
    destruct Hs as [Hdom Hall]. split; [rewrite Ho, Hi; exact Hdom |].
    intros k x. rewrite Ho. intros Hx. unfold orderOk. rewrite Hi.
    apply (Hall k x Hx).
Qed.

(** *** Asking twice *)

(** X18. An accepted status request cannot be replayed: the same request
    for the same order, at any later time, is answered 400 "order status
    can be updated to a lower or the same status" and changes nothing. *)
Theorem repeated_update_rejected orderId req now now' (s : St) o :
  store_wf s -> acceptedUpdate orderId req s = Some o ->
  let s' := snd (UpdateOrderStatusHandler orderId req now s) in
  UpdateOrderStatusHandler orderId req now' s'
  = (mkResponse StatusBadRequest
       (Text "order status can be updated to a lower or the same status"),
     s').
Proof.
  intros Hwf E. cbv zeta.
  destruct (UpdateOrderStatusHandler_accepted orderId req now s o E)
    as (Ho & _ & _).
  apply acceptedUpdate_Some in E as (Hv & Hl & _).
  set (s' := snd (UpdateOrderStatusHandler orderId req now s)) in *.
  unfold UpdateOrderStatusHandler, run, bind, lookupOrder.
  rewrite Hv, Ho, (Hwf _ _ Hl), lookup_insert_eq, withStatus_Status.
  unfold transitionError. rewrite Z.leb_refl. reflexivity.
Qed.

End Handlers.

(** ** The further properties on concrete requests *)

(** "Placed", with a capital, is not a status. *)
Lemma invalid_status_rejected_witness :
  ("Placed" ∉ statuses) /\
  UpdateOrderStatusHandler "id1" (mkStatusReq "Placed") "t1" placedStore
  = (mkResponse StatusBadRequest (Text "invalid order status"), placedStore).
Proof.
  assert (H : "Placed" ∉ statuses).
  { intros H. apply elem_of_statuses in H.
    destruct H as [H | [H | [H | [H | H]]]]; discriminate H. }
  split; [exact H |].
  apply (invalid_status_rejected_before_lookup "id1" (mkStatusReq "Placed")
           "t1" placedStore H).
Defined.

Lemma update_unknown_order_witness :
  orders placedStore !! "id9" = None /\
  UpdateOrderStatusHandler "id9" (mkStatusReq OrderDispatched) "t1"
    placedStore
  = (mkResponse StatusNotFound (Text "order with id: id9 does not exist"),
     placedStore).
Proof.
  assert (H : orders placedStore !! "id9" = None) by (vm_compute; reflexivity).
  split; [exact H |].
  apply (update_unknown_order_not_found "id9" (mkStatusReq OrderDispatched)
           "t1" placedStore); [repeat constructor | exact H].
Defined.

Lemma get_unknown_order_witness :
  GetOrderDetailsHandler "id9" placedStore
  = (mkResponse StatusNotFound (Text "order with id: id9 does not exist"),
     placedStore).
Proof.
  apply (get_unknown_order_not_found "id9" placedStore).
  vm_compute. reflexivity.
Defined.

(** The placed order, cancelled at "t1". *)
Definition cancelledStore : State Catalog :=
  snd (UpdateOrderStatusHandler "id1" (mkStatusReq OrderCancelled) "t1"
         placedStore).

Definition cancelledOrder : Order :=
  mkOrder "id1" 10 54%float OrderCancelled "" "t0" "t0".

Lemma terminal_states_witness :
  orders cancelledStore !! "id1" = Some cancelledOrder /\
  exists reason,
    UpdateOrderStatusHandler "id1" (mkStatusReq OrderDispatched) "t2"
      cancelledStore
    = (mkResponse StatusBadRequest (Text reason), cancelledStore).
Proof.
  assert (H : orders cancelledStore !! "id1" = Some cancelledOrder)
    by (vm_compute; reflexivity).
  split; [exact H |].
  apply (terminal_states_reject_every_update "id1"
           (mkStatusReq OrderDispatched) "t2" cancelledStore cancelledOrder H).
  right. reflexivity.
Defined.

(** The whole life of an order, and a request too many. *)
Definition wholeLife : list Update :=
  [("id1", mkStatusReq OrderDispatched, "t1");
   ("id1", mkStatusReq OrderCompleted, "t2");
   ("id1", mkStatusReq OrderReturned, "t3");
   ("id1", mkStatusReq OrderCancelled, "t4")].

Lemma at_most_three_updates_witness :
  orders placedStore !! "id1" = Some placedOrder /\
  (acceptedCount "id1" wholeLife placedStore <= 3)%nat /\
  acceptedCount "id1" wholeLife placedStore = 3%nat.
Proof.
  assert (H : orders placedStore !! "id1" = Some placedOrder)
    by (vm_compute; reflexivity).
  split; [exact H |]. split.
  - apply (at_most_three_updates "id1" wholeLife placedStore placedOrder
             placedStore_wf H).
    repeat constructor.
  - vm_compute. reflexivity.
Defined.

Lemma updates_keep_placement_fields_witness :
  exists o',
    orders (updates wholeLife placedStore) !! "id1" = Some o' /\
    Discount o' = 10 /\ Amount o' = 54%float /\ CreatedAt o' = "t0" /\
    UpdatedAt o' = "t0" /\ Status o' = OrderReturned.
Proof.
  destruct (updates_keep_placement_fields "id1" wholeLife placedStore
              placedOrder placedStore_wf)
    as (o' & Ho' & _ & Hd & Ha & Hc & Hu & _).
  - vm_compute. reflexivity.
  - exists o'. repeat split; auto.
    assert (H : Status <$> orders (updates wholeLife placedStore) !! "id1"
                = Some OrderReturned) by (vm_compute; reflexivity).
    rewrite Ho' in H. injection H as H. exact H.
Defined.

Lemma UpdateOrderStatusHandler_frame_witness :
  orderItems
    (snd (UpdateOrderStatusHandler "id1" (mkStatusReq OrderDispatched) "t1"
            placedStore))
  = orderItems placedStore /\
  dom
    (orders
       (snd (UpdateOrderStatusHandler "id1" (mkStatusReq OrderDispatched)
               "t1" placedStore)))
  = dom (orders placedStore).
Proof.
  destruct (UpdateOrderStatusHandler_frame "id1"
              (mkStatusReq OrderDispatched) "t1" placedStore placedStore_wf)
    as (Hi & _ & Hd).
  split; [exact Hi | exact Hd].
Defined.

Lemma repeated_update_rejected_witness :
  UpdateOrderStatusHandler "id1" (mkStatusReq OrderDispatched) "t2"
    (snd (UpdateOrderStatusHandler "id1" (mkStatusReq OrderDispatched) "t1"
            placedStore))
  = (mkResponse StatusBadRequest
       (Text "order status can be updated to a lower or the same status"),
     snd (UpdateOrderStatusHandler "id1" (mkStatusReq OrderDispatched) "t1"
            placedStore)).
Proof.
  apply (repeated_update_rejected "id1" (mkStatusReq OrderDispatched) "t1"
           "t2" placedStore placedOrder placedStore_wf).
  vm_compute. reflexivity.
Defined.

(** The answer to the placement of the three premium products. *)
Definition placedProjection : CreateOrderResponse :=
  mkOrderResp "id1"
    [mkItemResp "P1" "name" "description" "premium" 10 1;
     mkItemResp "P2" "name" "description" "Premium" 20 1;
     mkItemResp "P3" "name" "description" "PREMIUM" 30 1]
    10 54%float OrderPlaced "" "t0" "t0".

Lemma PlaceOrderHandler_success_witness :
  fst (PlaceOrderHandler asciiToLower premiumOrder "id1" "t0"
         (emptyStore premiumCatalog))
  = mkResponse StatusOK (Json placedProjection) /\
  orderItems placedStore !! "id1"
  = Some [mkOrderItem "P1" 1 "id1"; mkOrderItem "P2" 1 "id1";
          mkOrderItem "P3" 1 "id1"].
Proof.
  assert (H : fst (PlaceOrderHandler asciiToLower premiumOrder "id1" "t0"
                     (emptyStore premiumCatalog))
              = mkResponse StatusOK (Json placedProjection))
    by (vm_compute; reflexivity).
  split; [exact H |].
  destruct (PlaceOrderHandler_success asciiToLower premiumOrder "id1" "t0"
              (emptyStore premiumCatalog) (Json placedProjection) H)
    as (o & l & _ & Hi & _).
  exact Hi.
Defined.

(** A second order leaves the first one alone. *)
Lemma PlaceOrderHandler_frame_witness :
  orders
    (snd (PlaceOrderHandler asciiToLower (single "P1" 2) "id2" "t5"
            placedStore)) !! "id1"
  = orders placedStore !! "id1".
Proof.
  apply (PlaceOrderHandler_frame asciiToLower (single "P1" 2) "id2" "t5"
           placedStore "id1").
  discriminate.
Defined.

Lemma GetOrderDetailsHandler_result_witness :
  orders placedStore !! "id1" = Some placedOrder /\
  orders (snd (GetOrderDetailsHandler "id1" placedStore))
  = orders placedStore /\
  fst (GetOrderDetailsHandler "id1" placedStore)
  = mkResponse StatusOK (Json placedProjection).
Proof.
  assert (H : orders placedStore !! "id1" = Some placedOrder)
    by (vm_compute; reflexivity).
  split; [exact H |].
  destruct (GetOrderDetailsHandler_result "id1" placedStore placedOrder H)
    as (Ho & _).
  split; [exact Ho | vm_compute; reflexivity].
Defined.

Lemma place_then_get_witness :
  fst (GetOrderDetailsHandler "id1" placedStore)
  = mkResponse StatusOK (Json placedProjection) /\
  resp_Discount placedProjection = 10 /\
  map lineOfResponse (resp_Items placedProjection)
  = [("P1", 1); ("P2", 1); ("P3", 1)].
Proof.
  assert (H : fst (PlaceOrderHandler asciiToLower premiumOrder "id1" "t0"
                     (emptyStore premiumCatalog))
              = mkResponse StatusOK (Json placedProjection))
    by (vm_compute; reflexivity).
  assert (Hr : fst (GetOrderDetailsHandler "id1" placedStore)
               = mkResponse StatusOK (Json placedProjection))
    by (vm_compute; reflexivity).
  destruct (place_then_get asciiToLower premiumOrder "id1" "t0"
              (emptyStore premiumCatalog) placedProjection H) as [_ Hget].
  destruct (Hget placedProjection Hr) as (_ & H2 & _ & _ & _ & _ & _ & H8).
  split; [exact Hr |]. split; [exact H2 | exact H8].
Defined.

Lemma GetOrdersHandler_result_witness :
  [placedOrder] ≡ₚ (map_to_list (orders placedStore)).*2 /\
  snd (fst (GetOrdersHandler [placedOrder] placedStore))
  = JsonList [placedProjection] /\
  length [placedProjection] = size (orders placedStore) /\
  map resp_ID [placedProjection] ≡ₚ ["id1"].
Proof.
  assert (H : [placedOrder] ≡ₚ (map_to_list (orders placedStore)).*2)
    by (vm_compute; reflexivity).
  assert (Hl : snd (fst (GetOrdersHandler [placedOrder] placedStore))
               = JsonList [placedProjection])
    by (vm_compute; reflexivity).
  split; [exact H |]. split; [exact Hl |].
  destruct (GetOrdersHandler_result [placedOrder] placedStore H)
    as (_ & _ & _ & _ & Hjson).
  destruct (Hjson [placedProjection] Hl) as (_ & Hlen & _ & _ & Hkeys).
  split; [exact Hlen |]. apply (Hkeys placedStore_wf).
Defined.
